(** * Score updater: the reconciliation of [app.py]

    The script joins a grade book (File A) with a live-scores sheet (File B)
    through an identity map (the "enrolled" sheet), then overwrites the
    placeholder scores ["0.00"] of a chosen grade-book column.

    The development follows the script line by line.  The pandas calls it
    makes are given as functions on columns of cells: [Text] holds the
    [str] methods, [Float64] the binary64 arithmetic behind [to_numeric],
    [round] and the [.2f] format, [Pandas] the frame and dictionary
    operations, and [App] the script itself.  *)

From Stdlib Require Import ZArith List String Ascii Bool Lia Floats.
From Stdlib Require Import DecimalString.
Import ListNotations.

(** ** Python text

    A character is a code point below 256, held in an [ascii]. *)

Module Text.
Local Open Scope string_scope.

Definition code (c : ascii) : N := N_of_ascii c.

Definition between (lo hi : N) (c : ascii) : bool :=
  (lo <=? code c)%N && (code c <=? hi)%N.

(** [str.isspace] on one character: TAB..CR, FS..US, the space, NEL and
    the no-break space. *)
Definition isspace (c : ascii) : bool :=
  between 9 13 c || between 28 32 c || between 133 133 c
  || between 160 160 c.

(** [str.lower] on one character: the letters A..Z and the accented
    capitals of Latin-1 (the multiplication sign is not a letter). *)
Definition lower_char (c : ascii) : ascii :=
  if between 65 90 c
     || (between 192 222 c && negb (between 215 215 c))
  then ascii_of_N (code c + 32) else c.

Fixpoint lower (s : string) : string :=
  match s with
  | "" => ""
  | String c s' => String (lower_char c) (lower s')
  end.

Fixpoint lstrip (s : string) : string :=
  match s with
  | "" => ""
  | String c s' => if isspace c then lstrip s' else s
  end.

Fixpoint rstrip (s : string) : string :=
  match s with
  | "" => ""
  | String c s' =>
      match rstrip s' with
      | "" => if isspace c then "" else String c ""
      | r => String c r
      end
  end.

(** [str.strip()] *)
Definition strip (s : string) : string := rstrip (lstrip s).

(** [str.replace(old, new)]: the occurrences of [old] are found from left
    to right and do not overlap.  [skip] counts the characters of a
    matched occurrence that are still to be passed over. *)
Fixpoint replace_from (skip : nat) (old new s : string) : string :=
  match s with
  | "" => ""
  | String c s' =>
      match skip with
      | S k => replace_from k old new s'
      | O =>
          if prefix old s
          then new ++ replace_from (length old - 1) old new s'
          else String c (replace_from 0 old new s')
      end
  end.

Fixpoint interleave (new s : string) : string :=
  match s with
  | "" => new
  | String c s' => new ++ String c (interleave new s')
  end.

Definition replace (old new s : string) : string :=
  match old with
  | "" => interleave new s
  | _ => replace_from 0 old new s
  end.

(** decimal numeral of an integer, as [str(int)] prints it *)
Definition of_Z (z : Z) : string := NilZero.string_of_int (Z.to_int z).

Fixpoint zeros (n : nat) : string :=
  match n with
  | O => ""
  | S k => String "0" (zeros k)
  end.

(** the numeral of [z >= 0], padded with zeros on the left to [n] places *)
Definition padded (n : nat) (z : Z) : string :=
  let d := of_Z z in zeros (n - length d) ++ d.

Definition is_digit (c : ascii) : bool := between 48 57 c.

Definition digit_val (c : ascii) : Z := Z.of_N (code c) - 48.

(** the leading digits of [s], their value and count, and what follows *)
Fixpoint read_digits (acc : Z) (n : nat) (s : string) : Z * nat * string :=
  match s with
  | String c s' =>
      if is_digit c then read_digits (10 * acc + digit_val c) (S n) s'
      else (acc, n, s)
  | "" => (acc, n, s)
  end.

Definition read_sign (s : string) : bool * string :=
  match s with
  | String "-" s' => (true, s')
  | String "+" s' => (false, s')
  | _ => (false, s)
  end.
End Text.

(** ** Binary64 numbers

    pandas holds the totals as [float64].  The arithmetic is that of the
    primitive floats; reading and printing decimals go through the exact
    value [m * 2^e] of a float. *)

Module Float64.
Import Text.
Local Open Scope Z_scope.

Definition NaN : float := nan.

(** nearest integer to [n / d] for [d > 0], ties to the even one *)
Definition half_even (n d : Z) : Z :=
  let q := n / d in
  match 2 * (n mod d) ?= d with
  | Lt => q
  | Gt => q + 1
  | Eq => if Z.even q then q else q + 1
  end.

(** the float nearest to [(-1)^neg * m * 10^e], for [m >= 0] *)
Definition of_decimal (neg : bool) (m e : Z) : float :=
  if m =? 0 then (if neg then neg_zero else zero)
  else if 0 <=? e
  then SF2Prim (binary_normalize prec emax (cond_Zopp neg (m * 10 ^ e)) 0 neg)
  else
    let '(q, e', l) := SFdiv_core_binary prec emax m 0 (10 ^ (- e)) 0 in
    SF2Prim (binary_round_aux prec emax neg q e' l).

(** [float(n)] for a Python integer *)
Definition of_int (z : Z) : float := of_decimal (z <? 0) (Z.abs z) 0.

Definition is_exp_mark (c : ascii) : bool :=
  Ascii.eqb c "e" || Ascii.eqb c "E".

(** The numeral grammar of [to_numeric] on one text: a sign, digits with
    an optional point, an optional exponent; or one of the words [inf],
    [infinity], [nan].  [None] is a text that is not a number. *)
Definition to_double (s : string) : option float :=
  let '(neg, s1) := read_sign s in
  let w := lower s1 in
  if String.eqb w "inf" || String.eqb w "infinity"
  then Some (if neg then neg_infinity else infinity)
  else if String.eqb w "nan" then Some NaN
  else
    let '(ip, ni, s2) := read_digits 0 0 s1 in
    let '(m, nf, s3) :=
      match s2 with
      | String "." t => read_digits ip 0 t
      | _ => (ip, O, s2)
      end in
    match (ni + nf)%nat with
    | O => None
    | _ =>
        match s3 with
        | EmptyString => Some (of_decimal neg m (- Z.of_nat nf))
        | String c t =>
            if is_exp_mark c then
              let '(eneg, t1) := read_sign t in
              let '(ev, ne, t2) := read_digits 0 0 t1 in
              match ne, t2 with
              | S _, EmptyString =>
                  Some (of_decimal neg m (cond_Zopp eneg ev - Z.of_nat nf))
              | _, _ => None
              end
            else None
        end
    end.

Definition two52 : float := 4503599627370496%float.

(** [numpy.rint]: the nearest integer, ties to even, the sign kept.
    Below [2^52] adding and taking away [2^52] rounds to an integer;
    from [2^52] on every float is one. *)
Definition rint (y : float) : float :=
  if (abs y <? two52)%float then
    let r := (if y <? 0 then (y - two52) + two52
              else (y + two52) - two52)%float in
    if is_zero r then (if get_sign y then neg_zero else zero) else r
  else y.

(** [numpy.round(x, 2)]: scale by 100, [rint], scale back *)
Definition np_round2 (x : float) : float := (rint (x * 100) / 100)%float.

Definition sign_text (s : bool) : string := if s then "-"%string else ""%string.

(** [f"{x:.2f}"]: the exact value of [x] rounded half-even to hundredths *)
Definition format_2f (x : float) : string :=
  match Prim2SF x with
  | S754_nan => "nan"%string
  | S754_infinity s => (sign_text s ++ "inf")%string
  | S754_zero s => (sign_text s ++ "0.00")%string
  | S754_finite s m e =>
      let q := if 0 <=? e then Zpos m * 2 ^ e * 100
               else half_even (Zpos m * 100) (2 ^ (- e)) in
      (sign_text s ++ of_Z (q / 100) ++ "." ++ padded 2 (q mod 100))%string
  end.

(** *** [repr]: the shortest numeral that reads back as the same float *)

(** compares [a * 2^ea] with [b * 10^eb] *)
Definition cmp2_10 (a ea b eb : Z) : comparison :=
  (a * 2 ^ Z.max ea 0 * 10 ^ Z.max (- eb) 0
     ?= b * 10 ^ Z.max eb 0 * 2 ^ Z.max (- ea) 0).

Fixpoint decpt_from (fuel : nat) (m e p : Z) : Z :=
  match fuel with
  | O => p
  | S k =>
      match cmp2_10 m e 1 p with
      | Lt => p
      | _ => decpt_from k m e (p + 1)
      end
  end.

(** the [p] with [10^(p-1) <= m * 2^e < 10^p] *)
Definition decpt (m e : Z) : Z :=
  decpt_from 8 m e ((Z.log2 m + e) * 30103 / 100000).

(** does [d * 10^k] read back as [m * 2^e]?  The interval runs to the
    midpoints with the neighbouring floats and is closed for even [m]. *)
Definition reads_back (m e d k : Z) : bool :=
  let below := if (m =? 2 ^ 52) && (-1074 <? e) then 1 else 2 in
  let inside c := match c with Lt => true | Eq => Z.even m | Gt => false end in
  inside (cmp2_10 (4 * m - below) (e - 2) d k)
  && inside (CompOpp (cmp2_10 (4 * m + 2) (e - 2) d k)).

(** the numeral of [n] digits for [m * 2^e] that reads back, if any *)
Definition candidate (m e p : Z) (n : Z) : option Z :=
  let k := p - n in
  let dl := (m * 2 ^ Z.max e 0 * 10 ^ Z.max (- k) 0)
            / (2 ^ Z.max (- e) 0 * 10 ^ Z.max k 0) in
  let dh := dl + 1 in
  match reads_back m e dl k, reads_back m e dh k with
  | true, true =>
      match cmp2_10 (2 * m) e (dl + dh) k with
      | Lt => Some dl
      | Gt => Some dh
      | Eq => Some (if Z.even dl then dl else dh)
      end
  | true, false => Some dl
  | false, true => Some dh
  | false, false => None
  end.

Fixpoint shortest_from (fuel : nat) (m e p n : Z) : Z * Z :=
  match fuel with
  | O => (half_even (m * 2 ^ Z.max e 0 * 10 ^ Z.max (n - p) 0)
                    (2 ^ Z.max (- e) 0 * 10 ^ Z.max (p - n) 0), p - n)
  | S f =>
      match candidate m e p n with
      | Some d => (d, p - n)
      | None => shortest_from f m e p (n + 1)
      end
  end.

Fixpoint drop_zeros (fuel : nat) (d k : Z) : Z * Z :=
  match fuel with
  | O => (d, k)
  | S f => if (d mod 10 =? 0) && negb (d =? 0)
           then drop_zeros f (d / 10) (k + 1) else (d, k)
  end.

(** digits and position of the point: the value is [0.digits * 10^point] *)
Definition shortest (m e : Z) : string * Z :=
  let '(d, k) := shortest_from 16 m e (decpt m e) 1 in
  let '(d, k) := drop_zeros 20 d k in
  let ds := of_Z d in
  (ds, k + Z.of_nat (String.length ds)).

Definition point_text (ds : string) (pt : Z) : string :=
  let nd := String.length ds in
  let ipt := Z.to_nat pt in
  if pt <=? 0 then ("0." ++ zeros (Z.to_nat (- pt)) ++ ds)%string
  else if (nd <=? ipt)%nat then (ds ++ zeros (ipt - nd) ++ ".0")%string
  else (substring 0 ipt ds ++ "." ++ substring ipt (nd - ipt) ds)%string.

Definition exp_text (ds : string) (x : Z) : string :=
  let nd := String.length ds in
  let frac := if (1 <? nd)%nat
              then ("." ++ substring 1 (nd - 1) ds)%string else ""%string in
  let sg := if x <? 0 then "-"%string else "+"%string in
  (substring 0 1 ds ++ frac ++ "e" ++ sg ++ padded 2 (Z.abs x))%string.

Definition repr_finite (m e : Z) : string :=
  let '(ds, pt) := shortest m e in
  if (-4 <? pt) && (pt <=? 16) then point_text ds pt
  else exp_text ds (pt - 1).

(** [repr(x)], which is also [str(x)] *)
Definition repr (x : float) : string :=
  match Prim2SF x with
  | S754_nan => "nan"%string
  | S754_infinity s => (sign_text s ++ "inf")%string
  | S754_zero s => (sign_text s ++ "0.0")%string
  | S754_finite s m e => (sign_text s ++ repr_finite (Zpos m) e)%string
  end.
End Float64.

(** ** Exceptions

    Every step of the script that can raise returns a [result]; the
    [try ... except Exception] of the script is the match on it. *)

Inductive exn :=
| KeyError (label : string)
| AttributeError
| ValueError.

Inductive result (A : Type) :=
| Ok (a : A)
| Raise (e : exn).

Arguments Ok {A} a.
Arguments Raise {A} e.

Definition bind {A B : Type} (r : result A) (k : A -> result B) : result B :=
  match r with
  | Ok a => k a
  | Raise e => Raise e
  end.

Declare Scope result_scope.
Delimit Scope result_scope with result.
Notation "x <- r ;; k" := (bind r (fun x => k))
  (at level 61, r at next level, right associativity) : result_scope.

Fixpoint mapM {A B : Type} (f : A -> result B) (l : list A) : result (list B) :=
  match l with
  | [] => Ok []
  | a :: l' =>
      (b <- f a ;; bs <- mapM f l' ;; Ok (b :: bs))%result
  end.

(** ** The pandas operations the script calls *)

Module Pandas.
Import Text.
Local Open Scope string_scope.
Local Open Scope result_scope.

(** What a cell of a frame holds: a text, a Python integer or a float;
    a missing value is the float NaN. *)
Inductive cell :=
| Str (s : string)
| Int (z : Z)
| Float (f : float).

Definition NaN : cell := Float Float64.NaN.

Definition isna (c : cell) : bool :=
  match c with
  | Float f => is_nan f
  | _ => false
  end.

Definition notna (c : cell) : bool := negb (isna c).

(** [str(x)] *)
Definition py_str (c : cell) : string :=
  match c with
  | Str s => s
  | Int z => of_Z z
  | Float f => Float64.repr f
  end.

(** [float(x)] *)
Definition py_float (c : cell) : result float :=
  match c with
  | Float f => Ok f
  | Int z => Ok (Float64.of_int z)
  | Str s =>
      match Float64.to_double (strip s) with
      | Some f => Ok f
      | None => Raise ValueError
      end
  end.

Definition Series := list cell.

(** [s.astype(str)] *)
Definition astype_str (s : Series) : Series :=
  map (fun c => Str (py_str c)) s.

(** the [.str] methods act on the texts of a column; any other cell
    comes out missing *)
Definition str_map (f : string -> string) (s : Series) : Series :=
  map (fun c => match c with Str t => Str (f t) | _ => NaN end) s.

Definition str_strip : Series -> Series := str_map strip.
Definition str_lower : Series -> Series := str_map lower.
Definition str_replace (old new : string) : Series -> Series :=
  str_map (replace old new).

(** [pd.to_numeric(s, errors="coerce")], the column read as float64 *)
Definition to_numeric (s : Series) : Series :=
  map (fun c =>
         match c with
         | Str t => match Float64.to_double t with
                    | Some f => Float f
                    | None => NaN
                    end
         | Int z => Float (Float64.of_int z)
         | Float f => Float f
         end) s.

(** [s.fillna(0)] *)
Definition fillna0 (s : Series) : Series :=
  map (fun c => if isna c then Float 0 else c) s.

(** [s.round(2)] *)
Definition round2 (s : Series) : Series :=
  map (fun c => match c with
                | Float f => Float (Float64.np_round2 f)
                | _ => c
                end) s.

(** [s.notna().sum()] and [s.isna().sum()] *)
Definition count_notna (s : Series) : nat := List.length (filter notna s).
Definition count_isna (s : Series) : nat := List.length (filter isna s).

(** *** Dictionaries *)

(** [==] on keys *)
Definition key_eqb (a b : cell) : bool :=
  match a, b with
  | Str s, Str t => String.eqb s t
  | Int x, Int y => Z.eqb x y
  | Float x, Float y => PrimFloat.eqb x y
  | Int x, Float y | Float y, Int x => PrimFloat.eqb (Float64.of_int x) y
  | _, _ => false
  end.

Definition dict := list (cell * cell).

Fixpoint dict_get (k : cell) (d : dict) : option cell :=
  match d with
  | [] => None
  | (k', v) :: d' => if key_eqb k' k then Some v else dict_get k d'
  end.

(** [d[k] = v]: a key already there keeps its place and takes the value *)
Fixpoint dict_set (k v : cell) (d : dict) : dict :=
  match d with
  | [] => [(k, v)]
  | (k', v') :: d' =>
      if key_eqb k' k then (k', v) :: d' else (k', v') :: dict_set k v d'
  end.

(** [dict(zip(keys, values))] *)
Definition dict_zip (keys values : Series) : dict :=
  fold_left (fun d kv => dict_set (fst kv) (snd kv) d) (combine keys values) [].

Inductive dtype := int64 | float64 | object.

Definition is_int (c : cell) : bool :=
  match c with Int _ => true | _ => false end.

Definition is_number (c : cell) : bool :=
  match c with Str _ => false | _ => true end.

(** the dtype pandas gives a column built from these values *)
Definition infer_dtype (s : Series) : dtype :=
  if forallb is_int s then int64
  else if forallb is_number s then float64
  else object.

Definition as_float (c : cell) : cell :=
  match c with
  | Int z => Float (Float64.of_int z)
  | _ => c
  end.

Definition found (o : option cell) : bool :=
  match o with Some _ => true | None => false end.

(** [s.map(d)]: the values of [d] make a column of their own, out of
    which the looked-up cells are taken; a key that is not in [d] gives a
    missing value, which turns an integer column into floats. *)
Definition Series_map (d : dict) (s : Series) : Series :=
  let hits := map (fun k => dict_get k d) s in
  let dt := infer_dtype (map snd d) in
  let widen := match dt with
               | int64 => negb (forallb found hits)
               | float64 => true
               | object => false
               end in
  map (fun o => match o with
                | None => NaN
                | Some v => if widen then as_float v else v
                end) hits.

(** *** Frames *)

Record DataFrame := mkDataFrame {
  index : nat;                      (* the number of rows *)
  cols : list (string * Series)     (* the columns, in order *)
}.

Definition columns (df : DataFrame) : list string := map fst (cols df).

(** each column has one cell per row *)
Definition wf (df : DataFrame) : Prop :=
  Forall (fun c => List.length (snd c) = index df) (cols df).

(** [df.empty] *)
Definition empty (df : DataFrame) : bool :=
  Nat.eqb (index df) 0 || Nat.eqb (List.length (cols df)) 0.

(** [df.columns = df.columns.str.strip()] *)
Definition strip_columns (df : DataFrame) : DataFrame :=
  mkDataFrame (index df) (map (fun c => (strip (fst c), snd c)) (cols df)).

Definition named (l : string) (c : string * Series) : bool :=
  String.eqb (fst c) l.

(** the columns that bear the label [l] *)
Definition select (df : DataFrame) (l : string) : list Series :=
  map snd (filter (named l) (cols df)).

(** [df[l]] is a column when one column bears the label, and a frame of
    the columns that bear it when several do *)
Inductive selection :=
| Column (s : Series)
| SubFrame (labels : list string).

Definition getitem (df : DataFrame) (l : string) : result selection :=
  match select df l with
  | [] => Raise (KeyError l)
  | [s] => Ok (Column s)
  | ss => Ok (SubFrame (map (fun _ => l) ss))
  end.

(** the [.str] accessor, [.map] and [.round] are methods of a column *)
Definition series (x : selection) : result Series :=
  match x with
  | Column s => Ok s
  | SubFrame _ => Raise AttributeError
  end.

(** iterating a column yields its cells, iterating a frame its labels *)
Definition iter (x : selection) : Series :=
  match x with
  | Column s => s
  | SubFrame labels => map Str labels
  end.

(** [df[l] = s]: the columns that bear [l] take the values, or a new
    column comes last *)
Definition setitem (df : DataFrame) (l : string) (s : Series) : DataFrame :=
  mkDataFrame (index df)
    (if existsb (named l) (cols df)
     then map (fun c => if named l c then (fst c, s) else c) (cols df)
     else cols df ++ [(l, s)]).

(** [df.drop(columns=ls)] *)
Definition drop (df : DataFrame) (ls : list string) : result DataFrame :=
  match filter (fun l => negb (existsb (named l) (cols df))) ls with
  | l :: _ => Raise (KeyError l)
  | [] =>
      Ok (mkDataFrame (index df)
            (filter (fun c => negb (existsb (String.eqb (fst c)) ls))
                    (cols df)))
  end.

(** the cell of row [i] in a column *)
Definition at_row (i : nat) (s : Series) : cell := nth i s NaN.

(** a row, as [df.apply(..., axis=1)] hands it to the function *)
Definition row := list (string * cell).

Definition rows (df : DataFrame) : list row :=
  map (fun i => map (fun c => (fst c, at_row i (snd c))) (cols df))
      (seq 0 (index df)).

(** [row[l]] is a cell when one column bears the label, and the cells of
    the columns that bear it when several do *)
Inductive picked :=
| One (c : cell)
| Several (cs : list cell).

Definition row_getitem (r : row) (l : string) : result picked :=
  match filter (fun c => String.eqb (fst c) l) r with
  | [] => Raise (KeyError l)
  | [c] => Ok (One (snd c))
  | cs => Ok (Several (map snd cs))
  end.

(** the truth value of [pd.notnull(x)]: that of several cells is
    ambiguous *)
Definition notnull (x : picked) : result bool :=
  match x with
  | One c => Ok (notna c)
  | Several _ => Raise ValueError
  end.

(** [str(x).strip() == t]; the text of several cells is their listing *)
Definition str_strip_is (t : string) (x : picked) : bool :=
  match x with
  | One c => String.eqb (strip (py_str c)) t
  | Several _ => false
  end.

(** the column made of the results of [apply], when each is a cell *)
Fixpoint cells (ps : list picked) : option Series :=
  match ps with
  | [] => Some []
  | One c :: ps' => option_map (cons c) (cells ps')
  | Several _ :: _ => None
  end.
End Pandas.

(** ** The script *)

Module App.
Import Text Pandas.
Local Open Scope string_scope.
Local Open Scope result_scope.

Definition email_col : string := "SIS Login ID".

(** the three normalisations of the script, each named after its lines *)

(* lines 77 and 78 *)
Definition normalize_email (s : Series) : Series :=
  str_lower (str_strip (astype_str s)).

(* line 85 *)
Definition normalize_id (s : Series) : Series :=
  str_replace ".0" "" (str_strip (astype_str s)).

(* line 86 *)
Definition normalize_live_id (s : Series) : Series :=
  str_strip (astype_str s).

(* lines 89 to 93 *)
Definition normalize_total (s : Series) : Series :=
  round2 (fillna0 (to_numeric (str_strip (str_replace "," "" (astype_str s))))).

(** what the script holds once the new scores are attached *)
Record Joined := mkJoined {
  df_a : DataFrame;
  df_b : DataFrame;
  mapping_df : DataFrame;
  email_to_id : dict;
  score_map : dict
}.

(** lines 71 to 99 *)
Definition prepare (df_a df_b mapping_df : DataFrame) : result Joined :=
  let df_a := strip_columns df_a in
  let df_b := strip_columns df_b in
  let mapping_df := strip_columns mapping_df in
  e <- getitem df_a email_col ;; e <- series e ;;
  let df_a := setitem df_a email_col (normalize_email e) in
  m <- getitem mapping_df "email" ;; m <- series m ;;
  let mapping_df := setitem mapping_df "email" (normalize_email m) in
  k <- getitem mapping_df "email" ;;
  v <- getitem mapping_df "Student ID Number" ;;
  let email_to_id := dict_zip (iter k) (iter v) in
  e <- getitem df_a email_col ;; e <- series e ;;
  let df_a := setitem df_a "Student ID Number" (Series_map email_to_id e) in
  i <- getitem df_a "Student ID Number" ;; i <- series i ;;
  let df_a := setitem df_a "Student ID Number" (normalize_id i) in
  i <- getitem df_b "Student ID Number" ;; i <- series i ;;
  let df_b := setitem df_b "Student ID Number" (normalize_live_id i) in
  t <- getitem df_b "Total" ;; t <- series t ;;
  let df_b := setitem df_b "Total" (normalize_total t) in
  k <- getitem df_b "Student ID Number" ;;
  v <- getitem df_b "Total" ;;
  let score_map := dict_zip (iter k) (iter v) in
  i <- getitem df_a "Student ID Number" ;; i <- series i ;;
  let df_a := setitem df_a "New Score" (Series_map score_map i) in
  Ok (mkJoined df_a df_b mapping_df email_to_id score_map).

(** [st.selectbox(..., df_a.columns)]: the option at the chosen place,
    the first one by default *)
Definition selectbox (options : list string) (choice : nat) : string :=
  nth choice options (hd "" options).

(** the function given to [df_a.apply] on line 116 *)
Definition substitute (update_col : string) (r : row) : result picked :=
  new <- row_getitem r "New Score" ;;
  present <- notnull new ;;
  old <- row_getitem r update_col ;;
  if present && str_strip_is "0.00" old
  then match new with
       | One c => f <- py_float c ;; Ok (One (Str (Float64.format_2f f)))
       | Several _ => Raise ValueError
       end
  else Ok old.

(** lines 115 to 118.  When several columns bear [update_col] each row
    gives their cells back and the columns are written as they were. *)
Definition update_scores (df_a : DataFrame) (update_col : string)
  : result DataFrame :=
  ps <- mapM (substitute update_col) (rows df_a) ;;
  match cells ps with
  | Some s => Ok (setitem df_a update_col s)
  | None => Ok df_a
  end.

(** what the button of line 111 produces *)
Record Updated := mkUpdated {
  df_after : DataFrame;        (* [df_a] once line 115 has run *)
  df_updated : DataFrame;
  updated_count : nat;
  not_found_count : nat
}.

(** lines 112 to 132 *)
Definition update (df_a : DataFrame) (update_col : string) : result Updated :=
  df_a <- update_scores df_a update_col ;;
  df_updated <- drop df_a ["Student ID Number"; "New Score"] ;;
  n <- getitem df_a "New Score" ;; n <- series n ;;
  Ok (mkUpdated df_a df_updated (count_notna n) (count_isna n)).

(** the reconciliation from the three datasets to the updated grade book *)
Definition reconcile (df_a df_b mapping_df : DataFrame) (choice : nat)
  : result Updated :=
  j <- prepare df_a df_b mapping_df ;;
  update (App.df_a j) (selectbox (columns (App.df_a j)) choice).

(** *** What the page shows

    The titles are given without their pictographs; the title of line 50
    and the footer of line 152, which every run shows, are left out. *)

Inductive event :=
| Subheader (s : string)
| Frame (df : DataFrame)              (* [st.write(df)] *)
| UpdatedCount (n : nat)
| NotFoundCount (n : nat)
| Download (df : DataFrame)           (* the CSV of the updated grade book *)
| Debug (df : DataFrame)
| SheetError (e : exn)                (* line 40 *)
| ProcessingError (e : exn)           (* line 148 *)
| MappingWarning.                     (* line 150 *)

(** [load_google_sheet_with_auth]: the sheet, or a message and an empty
    frame when reading it raises *)
Definition load_google_sheet_with_auth (sheet : result DataFrame)
  : list event * DataFrame :=
  match sheet with
  | Ok df => ([], df)
  | Raise e => ([SheetError e], mkDataFrame 0 [])
  end.

(** the debug view of line 145 *)
Definition debug_view (df_a : DataFrame) : DataFrame :=
  mkDataFrame (Nat.min 10 (index df_a))
    (map (fun l => (l, firstn 10 (List.concat (select df_a l))))
         [email_col; "Student ID Number"; "New Score"]).

(** lines 59 to 150: one run of the page on the two uploaded files, the
    sheet, the choice of the column and the state of the button *)
Definition run (file_a file_b : option DataFrame) (sheet : result DataFrame)
           (choice : nat) (pressed : bool) : list event :=
  match file_a, file_b with
  | Some df_a, Some df_b =>
      let '(shown, mapping_df) := load_google_sheet_with_auth sheet in
      Subheader "Loading Mapping Sheet..." :: shown ++
      if negb (empty mapping_df) then
        match prepare df_a df_b mapping_df with
        | Raise e => [ProcessingError e]
        | Ok j =>
            let update_col := selectbox (columns (App.df_a j)) choice in
            [Subheader "Preview of Grade Book"; Frame (App.df_a j);
             Subheader "Preview of Live Scores Sheet"; Frame (App.df_b j)]
            ++ (if pressed then
                  match update (App.df_a j) update_col with
                  | Raise e => [ProcessingError e]
                  | Ok u =>
                      [Subheader "Preview of Updated Scores";
                       Frame (df_updated u);
                       Subheader "Summary";
                       UpdatedCount (updated_count u);
                       NotFoundCount (not_found_count u);
                       Download (df_updated u);
                       Debug (debug_view (df_after u))]
                  end
                else [])
        end
      else [MappingWarning]
  | _, _ => []
  end.
End App.

(** ** Predicates of the statements *)

Module Props.
Import Text Pandas App.
Local Open Scope string_scope.

(** a text that ends in a point and two digits *)
Definition two_places (t : string) : Prop :=
  exists (a : string) (d1 d2 : ascii),
    t = a ++ String "." (String d1 (String d2 ""))
    /\ is_digit d1 = true /\ is_digit d2 = true.

(** a float that is neither NaN nor infinite *)
Definition finite (f : float) : bool :=
  match Prim2SF f with
  | S754_zero _ | S754_finite _ _ _ => true
  | _ => false
  end.

Fixpoint no_space (t : string) : bool :=
  match t with
  | "" => true
  | String c t' => negb (isspace c) && no_space t'
  end.

(** no two points in a row *)
Fixpoint no_point_pair (t : string) : bool :=
  match t with
  | String "." (String "." _) => false
  | String _ t' => no_point_pair t'
  | "" => true
  end.

(** the identifiers on which the normalisation settles at once *)
Definition plain (c : cell) : bool :=
  let t := strip (py_str c) in no_space t && no_point_pair t.

(** how many columns bear the label [l] once the headers are stripped *)
Definition bearers (l : string) (df : DataFrame) : nat :=
  List.length (select (strip_columns df) l).

(** the cell of row [i] under the label [l] *)
Definition cell_at (df : DataFrame) (i : nat) (l : string) : result picked :=
  row_getitem (nth i (rows df) []) l.

(** an event that hands out a result of the update *)
Definition is_output (e : event) : bool :=
  match e with
  | Download _ | UpdatedCount _ | NotFoundCount _ | Debug _ => true
  | Subheader s => String.eqb s "Preview of Updated Scores"
  | _ => false
  end.

Definition no_output (evs : list event) : bool :=
  negb (existsb is_output evs).
(** [replace ".0" ""] as a recursion of its own *)
Fixpoint drop_point_zero (s : string) : string :=
  match s with
  | String "." (String "0" r) => drop_point_zero r
  | String c r => String c (drop_point_zero r)
  | "" => ""
  end.

Definition starts_with (c : ascii) (s : string) : bool :=
  match s with
  | String c' _ => Ascii.eqb c' c
  | "" => false
  end.

(** the frames and dictionaries of a join, from the columns it reads *)
Definition joined (a b m : DataFrame) (e me lid tot : Series) (v : selection)
  : Joined :=
  let d := dict_zip (normalize_email me) (iter v) in
  let sm := dict_zip (normalize_live_id lid) (normalize_total tot) in
  let E := normalize_email e in
  let S0 := Series_map d E in
  let IDS := normalize_id S0 in
  mkJoined
    (setitem
       (setitem
          (setitem (setitem (strip_columns a) email_col E)
                   "Student ID Number" S0)
          "Student ID Number" IDS)
       "New Score" (Series_map sm IDS))
    (setitem (setitem (strip_columns b) "Student ID Number"
                      (normalize_live_id lid))
             "Total" (normalize_total tot))
    (setitem (strip_columns m) "email" (normalize_email me))
    d sm.

(** the columns [prepare] needs, each borne once *)
Definition readable (a b m : DataFrame) (e me lid tot : Series) (v : selection)
  : Prop :=
  select (strip_columns a) email_col = [e]
  /\ List.length (select (strip_columns a) "Student ID Number") <= 1
  /\ select (strip_columns m) "email" = [me]
  /\ getitem (strip_columns m) "Student ID Number" = Ok v
  /\ select (strip_columns b) "Student ID Number" = [lid]
  /\ select (strip_columns b) "Total" = [tot].

(** the total of one cell, as lines 89 to 93 make it *)
Definition total_of (c : cell) : cell :=
  Float (Float64.np_round2
           match Float64.to_double (strip (replace "," "" (py_str c))) with
           | Some f => if is_nan f then 0%float else f
           | None => 0%float
           end).

(** the value of the last pair of [l] whose key is the text [t] *)
Fixpoint last_value (t : string) (l : list (cell * cell)) : option cell :=
  match l with
  | [] => None
  | (k, v) :: l' =>
      match last_value t l' with
      | Some w => Some w
      | None => if key_eqb k (Str t) then Some v else None
      end
  end.

(** a text of two digits *)
Definition two_digits (t : string) : bool :=
  match t with
  | String d1 (String d2 "") => is_digit d1 && is_digit d2
  | _ => false
  end.

(** the cells a label selects in row [i], from the columns that bear it *)
Definition pick (i : nat) (ss : list Series) (l : string) : result picked :=
  match ss with
  | [] => Raise (KeyError l)
  | [s] => Ok (One (at_row i s))
  | _ => Ok (Several (map (at_row i) ss))
  end.

(** what line 116 puts in the place of [old] when the new score is [new] *)
Definition substituted (new old : cell) : result picked :=
  if notna new && String.eqb (strip (py_str old)) "0.00"
  then bind (py_float new)
            (fun f => Ok (One (Str (Float64.format_2f f))))
  else Ok (One old).

(** the labels that [drop] of line 120 keeps *)
Definition kept (l : string) : bool :=
  negb (existsb (String.eqb l) ["Student ID Number"; "New Score"]).

(** a text made of decimal digits only *)
Fixpoint all_digits (t : string) : bool :=
  match t with
  | "" => true
  | String c t' => is_digit c && all_digits t'
  end.

(** a cell that [float(...)] accepts as it is *)
Definition is_float (c : cell) : bool :=
  match c with Float _ => true | _ => false end.

(** the rows of a column of [n] rows that have a value, and those that
    have none *)
Definition rows_with (s : Series) (n : nat) : list nat :=
  filter (fun i => notna (at_row i s)) (seq 0 n).

Definition rows_without (s : Series) (n : nat) : list nat :=
  filter (fun i => isna (at_row i s)) (seq 0 n).
End Props.

(** ** Sample data *)

Module Sample.
Import Text Pandas App.
Local Open Scope string_scope.

(** the worked example of the specification *)
Definition grade_book : DataFrame :=
  mkDataFrame 1 [("SIS Login ID", [Str " A@X.com "]);
                 ("Quiz 1", [Str "0.00"])].

Definition live_scores : DataFrame :=
  mkDataFrame 1 [("Student ID Number", [Str "1001"]);
                 ("Total", [Str "85,0"])].

Definition identity_map : DataFrame :=
  mkDataFrame 1 [("email", [Str "a@x.com"]);
                 ("Student ID Number", [Str "1001.0"])].

(** the same grade book with its key header in lower case *)
Definition grade_book_lower : DataFrame :=
  mkDataFrame 1 [("sis login id", [Str " A@X.com "]);
                 ("Quiz 1", [Str "0.00"])].

(** headers with blanks around them *)
Definition grade_book_padded : DataFrame :=
  mkDataFrame 1 [(" SIS Login ID ", [Str " A@X.com "]);
                 ("Quiz 1 ", [Str "0.00"])].

(** a grade book with a student the sheet does not know, and a live
    sheet with a row whose identifier cell is empty *)
Definition grade_book_2 : DataFrame :=
  mkDataFrame 2 [("SIS Login ID", [Str "a@x.com"; Str "nobody@x.com"]);
                 ("Quiz 1", [Str "12.50"; Str "0.00"])].

Definition live_scores_2 : DataFrame :=
  mkDataFrame 2 [("Student ID Number", [Float 1001; Float Float64.NaN]);
                 ("Total", [Float 85.5; Float 40])].

Definition identity_map_2 : DataFrame :=
  mkDataFrame 1 [("email", [Str "a@x.com"]);
                 ("Student ID Number", [Int 1001])].

(** a grade book without its key column *)
Definition grade_book_keyless : DataFrame :=
  mkDataFrame 1 [("Quiz 1", [Str "0.00"])].

(** a joined grade book whose new score is a text that is no number *)
Definition joined_bad : DataFrame :=
  mkDataFrame 1 [("Quiz 1", [Str "0.00"]); ("New Score", [Str "n/a"])].

(** the grade book of the worked example once the scores are attached,
    and once they are written *)
Definition joined_book : DataFrame :=
  mkDataFrame 1 [("SIS Login ID", [Str "a@x.com"]);
                 ("Quiz 1", [Str "0.00"]);
                 ("Student ID Number", [Str "1001"]);
                 ("New Score", [Float 850%float])].

Definition written_book : DataFrame :=
  mkDataFrame 1 [("SIS Login ID", [Str "a@x.com"]);
                 ("Quiz 1", [Str "850.00"]);
                 ("Student ID Number", [Str "1001"]);
                 ("New Score", [Float 850%float])].

(** a grade book that comes with two columns named ["New Score"] *)
Definition grade_book_twice : DataFrame :=
  mkDataFrame 1 [("SIS Login ID", [Str "a@x.com"]);
                 ("New Score", [Str "0.00"]);
                 (" New Score", [Str "1"])].

(** a grade book that already has columns under the two names the join
    uses for its own *)
Definition grade_book_named : DataFrame :=
  mkDataFrame 1 [("SIS Login ID", [Str " A@X.com "]);
                 ("Student ID Number", [Str "old id"]);
                 ("New Score", [Str "old score"]);
                 ("Quiz 1", [Str "0.00"])].
End Sample.

(** * Properties *)

(** ** Exceptions and [mapM] *)

Lemma bind_Ok {A B : Type} (r : result A) (k : A -> result B) (b : B) :
  bind r k = Ok b -> exists a, r = Ok a /\ k a = Ok b.
Proof. destruct r as [a|e]; simpl; intros H; [eauto | discriminate]. Qed.

Lemma mapM_Ok {A B : Type} (f : A -> result B) (l : list A) (bs : list B) :
  mapM f l = Ok bs -> Forall2 (fun a b => f a = Ok b) l bs.
Proof.
  revert bs. induction l as [|a l IH]; simpl; intros bs H.
  - injection H as <-. constructor.
  - apply bind_Ok in H as (b & Hb & H).
    apply bind_Ok in H as (bs' & Hbs & H).
    injection H as <-. constructor; auto.
Qed.

Tactic Notation "inv_bind" hyp(H) "as" ident(x) ident(Hx) :=
  apply bind_Ok in H as (x & Hx & H).

(** ** Frames *)

Module FrameFacts.
Import Text Pandas.
Local Open Scope string_scope.

Lemma named_eq (l : string) (c : string * Series) :
  named l c = true <-> fst c = l.
Proof. unfold named. apply String.eqb_eq. Qed.

Lemma getitem_series (df : DataFrame) (l : string) (x : selection) (s : Series) :
  getitem df l = Ok x -> series x = Ok s -> select df l = [s].
Proof.
  unfold getitem. destruct (select df l) as [|s1 [|s2 ss]]; intros H Hs.
  - discriminate.
  - injection H as <-. simpl in Hs. congruence.
  - injection H as <-. discriminate.
Qed.

Lemma getitem_unique (df : DataFrame) (l : string) (s : Series) :
  select df l = [s] -> getitem df l = Ok (Column s).
Proof. unfold getitem. intros ->. reflexivity. Qed.

Lemma getitem_Ok (df : DataFrame) (l : string) (x : selection) :
  getitem df l = Ok x -> select df l <> [].
Proof. unfold getitem. destruct (select df l); [discriminate | discriminate]. Qed.

Lemma getitem_missing (df : DataFrame) (l : string) :
  select df l = [] -> getitem df l = Raise (KeyError l).
Proof. unfold getitem. intros ->. reflexivity. Qed.

Lemma select_nil_existsb (df : DataFrame) (l : string) :
  existsb (named l) (cols df) = false <-> select df l = [].
Proof.
  unfold select. induction (cols df) as [|c cs IH]; simpl.
  - tauto.
  - destruct (named l c); simpl; [split; discriminate | exact IH].
Qed.

Lemma select_setitem_same (df : DataFrame) (l : string) (s : Series) :
  select (setitem df l s) l
  = match select df l with
    | [] => [s]
    | ss => map (fun _ => s) ss
    end.
Proof.
  unfold setitem, select at 1. simpl.
  destruct (existsb (named l) (cols df)) eqn:E.
  - assert (Hne : select df l <> []).
    { intros H. apply select_nil_existsb in H. congruence. }
    clear E. unfold select in *.
    assert (G : map snd (filter (named l)
                (map (fun c => if named l c then (fst c, s) else c) (cols df)))
                = map (fun _ => s) (map snd (filter (named l) (cols df)))).
    { clear Hne. induction (cols df) as [|c cs IH]; simpl; [reflexivity|].
      destruct (named l c) eqn:N; simpl.
      - unfold named at 1. simpl. unfold named in N. rewrite N. simpl.
        now rewrite IH.
      - rewrite N. exact IH. }
    rewrite G. destruct (map snd (filter (named l) (cols df))); [congruence | reflexivity].
  - apply select_nil_existsb in E. rewrite E.
    unfold select in E. rewrite filter_app, map_app, E. simpl.
    unfold named. simpl. now rewrite String.eqb_refl.
Qed.

Lemma select_setitem_other (df : DataFrame) (l l' : string) (s : Series) :
  l <> l' -> select (setitem df l s) l' = select df l'.
Proof.
  intros Hne. unfold setitem, select. simpl.
  assert (Hn : named l' (l, s) = false).
  { unfold named. simpl. now apply String.eqb_neq. }
  destruct (existsb (named l) (cols df)).
  - induction (cols df) as [|c cs IH]; simpl; [reflexivity|].
    destruct (named l c) eqn:N.
    + apply named_eq in N.
      assert (named l' c = false) as ->.
      { unfold named. apply String.eqb_neq. congruence. }
      unfold named at 1. simpl. rewrite N.
      apply String.eqb_neq in Hne. rewrite Hne. exact IH.
    + destruct (named l' c); simpl; now rewrite IH.
  - rewrite filter_app, map_app. simpl. rewrite Hn. simpl. now rewrite app_nil_r.
Qed.

Lemma index_setitem (df : DataFrame) (l : string) (s : Series) :
  index (setitem df l s) = index df.
Proof. reflexivity. Qed.

Lemma columns_setitem (df : DataFrame) (l : string) (s : Series) :
  columns (setitem df l s)
  = if existsb (named l) (cols df) then columns df
    else (columns df ++ [l])%list.
Proof.
  unfold setitem, columns. simpl.
  destruct (existsb (named l) (cols df)).
  - rewrite map_map. apply map_ext. intros c. now destruct (named l c).
  - now rewrite map_app.
Qed.

Lemma select_In (df : DataFrame) (l : string) (s : Series) :
  In s (select df l) <-> In (l, s) (cols df).
Proof.
  unfold select. rewrite in_map_iff. split.
  - intros ([l' s'] & <- & H). apply filter_In in H as (H & N).
    apply named_eq in N. simpl in N. now subst.
  - intros H. exists (l, s). split; [reflexivity|].
    apply filter_In. split; [assumption|]. now apply named_eq.
Qed.

Lemma wf_select (df : DataFrame) (l : string) (s : Series) :
  wf df -> In s (select df l) -> List.length s = index df.
Proof.
  intros W H. apply select_In in H.
  unfold wf in W. rewrite Forall_forall in W. exact (W _ H).
Qed.

Lemma existsb_named_columns (df : DataFrame) (l : string) :
  existsb (named l) (cols df) = true <-> In l (columns df).
Proof.
  rewrite existsb_exists. unfold columns. rewrite in_map_iff. split.
  - intros (c & H & N). exists c. split; [now apply named_eq | assumption].
  - intros (c & N & H). exists c. split; [assumption | now apply named_eq].
Qed.
End FrameFacts.

(** ** The join, line by line *)

Module JoinFacts.
Import Text Pandas App Props FrameFacts.
Local Open Scope string_scope.

(** reading back a column that has just been assigned *)
Lemma reread (df : DataFrame) (l : string) (s s' : Series) (x : selection) :
  getitem (setitem df l s) l = Ok x -> series x = Ok s' ->
  s' = s /\ List.length (select df l) <= 1.
Proof.
  intros G S. pose proof (getitem_series _ _ _ _ G S) as H.
  rewrite select_setitem_same in H.
  destruct (select df l) as [|s1 [|s2 ss]]; simpl in *.
  - split; [congruence | lia].
  - split; [congruence | lia].
  - discriminate.
Qed.

Lemma reread_sel (df : DataFrame) (l : string) (s : Series) (x : selection) :
  List.length (select df l) <= 1 ->
  getitem (setitem df l s) l = Ok x -> x = Column s.
Proof.
  intros L G. unfold getitem in G. rewrite select_setitem_same in G.
  destruct (select df l) as [|s1 [|s2 ss]]; simpl in *;
    try (injection G as <-; reflexivity). lia.
Qed.

Lemma getitem_setitem_same (df : DataFrame) (l : string) (s : Series) :
  List.length (select df l) <= 1 ->
  getitem (setitem df l s) l = Ok (Column s).
Proof.
  intros L. unfold getitem. rewrite select_setitem_same.
  destruct (select df l) as [|s1 [|s2 ss]]; simpl in *; try reflexivity. lia.
Qed.

Lemma getitem_setitem_other (df : DataFrame) (l l' : string) (s : Series) :
  l <> l' -> getitem (setitem df l s) l' = getitem df l'.
Proof. intros H. unfold getitem. now rewrite select_setitem_other. Qed.

Lemma prepare_readable (a b m : DataFrame) (e me lid tot : Series) (v : selection) :
  readable a b m e me lid tot v ->
  prepare a b m = Ok (joined a b m e me lid tot v).
Proof.
  intros (He & Hs & Hme & Hv & Hlid & Htot).
  unfold prepare, joined.
  rewrite (getitem_unique _ _ _ He). simpl.
  rewrite (getitem_unique _ _ _ Hme). simpl.
  rewrite getitem_setitem_same by (rewrite Hme; simpl; lia). simpl.
  rewrite getitem_setitem_other by discriminate. rewrite Hv. simpl.
  rewrite getitem_setitem_same by (rewrite He; simpl; lia). simpl.
  rewrite getitem_setitem_same
    by (rewrite select_setitem_other by discriminate; exact Hs). simpl.
  rewrite (getitem_unique _ _ _ Hlid). simpl.
  rewrite getitem_setitem_other by discriminate.
  rewrite (getitem_unique _ _ _ Htot). simpl.
  rewrite getitem_setitem_other by discriminate.
  rewrite getitem_setitem_same by (rewrite Hlid; simpl; lia). simpl.
  rewrite getitem_setitem_same
    by (rewrite select_setitem_other by discriminate; rewrite Htot; simpl; lia).
  simpl.
  rewrite getitem_setitem_same.
  - reflexivity.
  - rewrite select_setitem_same.
    rewrite select_setitem_other by discriminate.
    destruct (select (strip_columns a) "Student ID Number") as [|s1 [|s2 ss]];
      simpl in *; lia.
Qed.

Lemma prepare_Ok (a b m : DataFrame) (j : Joined) :
  prepare a b m = Ok j ->
  exists e me lid tot v,
    readable a b m e me lid tot v /\ j = joined a b m e me lid tot v.
Proof.
  intros H. unfold prepare in H.
  inv_bind H as x0 G0. inv_bind H as e He'.
  pose proof (getitem_series _ _ _ _ G0 He') as He.
  inv_bind H as x1 G1. inv_bind H as me Hme'.
  pose proof (getitem_series _ _ _ _ G1 Hme') as Hme.
  inv_bind H as k Gk.
  apply reread_sel in Gk; [subst k | rewrite Hme; simpl; lia].
  inv_bind H as v Hv.
  rewrite getitem_setitem_other in Hv by discriminate.
  inv_bind H as x2 G2. inv_bind H as e2 He2.
  apply reread_sel in G2; [subst x2 | rewrite He; simpl; lia].
  simpl in He2. injection He2 as <-.
  inv_bind H as x3 G3. inv_bind H as i3 Hi3.
  destruct (reread _ _ _ _ _ G3 Hi3) as (-> & Hs).
  rewrite select_setitem_other in Hs by discriminate.
  inv_bind H as x4 G4. inv_bind H as lid Hlid'.
  pose proof (getitem_series _ _ _ _ G4 Hlid') as Hlid.
  inv_bind H as x5 G5. inv_bind H as tot Htot'.
  rewrite getitem_setitem_other in G5 by discriminate.
  pose proof (getitem_series _ _ _ _ G5 Htot') as Htot.
  inv_bind H as k2 Gk2.
  rewrite getitem_setitem_other in Gk2 by discriminate.
  apply reread_sel in Gk2; [subst k2 | rewrite Hlid; simpl; lia].
  inv_bind H as v2 Gv2.
  apply reread_sel in Gv2;
    [subst v2
    | rewrite select_setitem_other by discriminate; rewrite Htot; simpl; lia].
  inv_bind H as x6 G6. inv_bind H as i6 Hi6.
  destruct (reread _ _ _ _ _ G6 Hi6) as (-> & _).
  injection H as <-.
  exists e, me, lid, tot, v. split; [|reflexivity].
  repeat split; assumption.
Qed.
End JoinFacts.

(** ** Text *)

Module TextFacts.
Import Text Props.
Local Open Scope string_scope.

Lemma prefix_point_zero (s : string) :
  prefix ".0" s = true <-> exists r, s = String "." (String "0" r).
Proof.
  rewrite prefix_correct. split.
  - destruct s as [|c [|c' r]]; simpl; try discriminate.
    destruct r; simpl; intros E; injection E as -> ->; eauto.
  - intros (r & ->). simpl. now destruct r.
Qed.

Lemma drop_point_zero_cons (c : ascii) (r : string) :
  prefix ".0" (String c r) = false ->
  drop_point_zero (String c r) = String c (drop_point_zero r).
Proof.
  intros H.
  destruct (Ascii.eqb_spec c ".") as [->|Hc].
  - destruct r as [|c' r']; [reflexivity|].
    destruct (Ascii.eqb_spec c' "0") as [->|Hc'].
    + assert (T : prefix ".0" (String "." (String "0" r')) = true)
        by (apply prefix_point_zero; eauto).
      congruence.
    + destruct c' as [[] [] [] [] [] [] [] []]; try reflexivity.
      congruence.
  - destruct c as [[] [] [] [] [] [] [] []]; try reflexivity. congruence.
Qed.

Lemma prefix_cons_point (c : ascii) (r : string) :
  c <> "."%char -> prefix ".0" (String c r) = false.
Proof.
  intros Hc. destruct (prefix ".0" (String c r)) eqn:P; [|reflexivity].
  apply prefix_point_zero in P as (r' & E). congruence.
Qed.

Lemma prefix_cons_zero (r : string) :
  prefix ".0" (String "." r) = false -> starts_with "0" r = false.
Proof.
  intros P. destruct r as [|c' r']; [reflexivity|]. simpl.
  destruct (Ascii.eqb_spec c' "0") as [->|]; [|reflexivity].
  assert (T : prefix ".0" (String "." (String "0" r')) = true)
    by (apply prefix_point_zero; eauto).
  congruence.
Qed.

Lemma replace_point_zero_aux (n : nat) (s : string) :
  (length s <= n)%nat ->
  replace_from 0 ".0" "" s = drop_point_zero s.
Proof.
  revert s. induction n as [|n IH]; intros s L.
  - destruct s; [reflexivity | simpl in L; lia].
  - destruct s as [|c r]; [reflexivity|].
    cbn [replace_from]. destruct (prefix ".0" (String c r)) eqn:P.
    + apply prefix_point_zero in P as (r' & E). injection E as -> ->.
      simpl. apply IH. simpl in L. lia.
    + rewrite drop_point_zero_cons by assumption.
      f_equal. apply IH. simpl in L. lia.
Qed.

Lemma replace_point_zero (s : string) :
  replace ".0" "" s = drop_point_zero s.
Proof. apply (replace_point_zero_aux (length s)). lia. Qed.

Lemma drop_point_zero_head (s : string) :
  starts_with "0" s = false -> starts_with "." s = false ->
  starts_with "0" (drop_point_zero s) = false.
Proof.
  destruct s as [|c r]; [reflexivity|]. simpl starts_with at 1 2.
  intros H0 Hp.
  rewrite drop_point_zero_cons.
  - exact H0.
  - apply prefix_cons_point. intros ->. discriminate.
Qed.

Lemma no_point_pair_tail (c : ascii) (r : string) :
  no_point_pair (String c r) = true -> no_point_pair r = true.
Proof.
  destruct r as [|c' r']; [reflexivity|].
  destruct (Ascii.eqb_spec c ".") as [->|Hc].
  - destruct (Ascii.eqb_spec c' ".") as [->|Hc']; [discriminate|].
    destruct c' as [[] [] [] [] [] [] [] []]; try (intros H; exact H).
    congruence.
  - destruct c as [[] [] [] [] [] [] [] []]; try (intros H; exact H).
    congruence.
Qed.

Lemma no_point_pair_head (r : string) :
  no_point_pair (String "." r) = true -> starts_with "." r = false.
Proof.
  destruct r as [|c' r']; [reflexivity|]. simpl starts_with.
  destruct (Ascii.eqb_spec c' ".") as [->|Hc']; [discriminate | reflexivity].
Qed.

Lemma drop_point_zero_settled_aux (n : nat) (s : string) :
  (length s <= n)%nat -> no_point_pair s = true ->
  drop_point_zero (drop_point_zero s) = drop_point_zero s.
Proof.
  revert s. induction n as [|n IH]; intros s L N.
  - destruct s; [reflexivity | simpl in L; lia].
  - destruct s as [|c r]; [reflexivity|].
    destruct (prefix ".0" (String c r)) eqn:P.
    + apply prefix_point_zero in P as (r' & E). injection E as -> ->.
      cbn [drop_point_zero].
      apply IH; [simpl in L; lia|].
      apply no_point_pair_tail in N. now apply no_point_pair_tail in N.
    + rewrite drop_point_zero_cons by assumption.
      pose proof (no_point_pair_tail _ _ N) as N'.
      rewrite drop_point_zero_cons.
      * f_equal. apply IH; [simpl in L; lia | assumption].
      * destruct (Ascii.eqb_spec c ".") as [->|Hc];
          [|now apply prefix_cons_point].
        pose proof (drop_point_zero_head r (prefix_cons_zero _ P)
                      (no_point_pair_head _ N)) as H.
        destruct (prefix ".0" (String "." (drop_point_zero r))) eqn:Q;
          [|reflexivity].
        apply prefix_point_zero in Q as (r' & E). injection E as E.
        rewrite E in H. discriminate.
Qed.

Lemma drop_point_zero_settled (s : string) :
  no_point_pair s = true ->
  drop_point_zero (drop_point_zero s) = drop_point_zero s.
Proof. apply (drop_point_zero_settled_aux (length s)). lia. Qed.

Lemma no_space_drop_aux (n : nat) (s : string) :
  (length s <= n)%nat -> no_space s = true ->
  no_space (drop_point_zero s) = true.
Proof.
  revert s. induction n as [|n IH]; intros s L N.
  - destruct s; [reflexivity | simpl in L; lia].
  - destruct s as [|c r]; [reflexivity|].
    destruct (prefix ".0" (String c r)) eqn:P.
    + apply prefix_point_zero in P as (r' & E). injection E as -> ->.
      cbn [drop_point_zero]. apply IH; [simpl in L; lia|].
      simpl in N. exact N.
    + rewrite drop_point_zero_cons by assumption.
      simpl in N |- *. apply andb_true_iff in N as (-> & N). simpl.
      apply IH; [simpl in L; lia | assumption].
Qed.

Lemma no_space_drop (s : string) :
  no_space s = true -> no_space (drop_point_zero s) = true.
Proof. apply (no_space_drop_aux (length s)). lia. Qed.

Lemma rstrip_no_space (s : string) : no_space s = true -> rstrip s = s.
Proof.
  induction s as [|c r IH]; [reflexivity|]. simpl.
  intros N. apply andb_true_iff in N as (Hc & N).
  rewrite (IH N). destruct r; [|reflexivity].
  apply negb_true_iff in Hc. now rewrite Hc.
Qed.

Lemma strip_no_space (s : string) : no_space s = true -> strip s = s.
Proof.
  intros N. unfold strip.
  assert (lstrip s = s) as ->.
  { destruct s as [|c r]; [reflexivity|]. simpl in *.
    apply andb_true_iff in N as (Hc & _).
    apply negb_true_iff in Hc. now rewrite Hc. }
  now apply rstrip_no_space.
Qed.
End TextFacts.

(** ** Binary64: rounding never loses a number *)

Module FloatFacts.
Import Float64.
Local Open Scope Z_scope.

Lemma is_nan_Prim2SF (f : float) :
  is_nan f = false <-> Prim2SF f <> S754_nan.
Proof.
  unfold Prim2SF. destruct (is_nan f); split; intros H; try congruence.
  destruct (is_zero f); [discriminate|].
  destruct (is_infinity f); [discriminate|].
  destruct (Z.frexp f) as [r ex].
  destruct (shr_fexp prec emax _ _ _) as [sh e'].
  destruct (shr_m sh); discriminate.
Qed.

Lemma shr_1_nonneg (mrs : shr_record) :
  0 <= shr_m mrs -> 0 <= shr_m (shr_1 mrs).
Proof.
  destruct mrs as [m r s]. simpl.
  destruct m as [|[p|p|]|[p|p|]]; simpl; lia.
Qed.

Lemma iter_shr_1_nonneg (p : positive) (mrs : shr_record) :
  0 <= shr_m mrs -> 0 <= shr_m (iter_pos shr_1 p mrs).
Proof.
  revert mrs. induction p as [p IH|p IH|]; intros mrs H; simpl.
  - apply IH, IH, shr_1_nonneg, H.
  - apply IH, IH, H.
  - apply shr_1_nonneg, H.
Qed.

Lemma shr_fexp_nonneg (m e : Z) (l : location) :
  0 <= m -> 0 <= shr_m (fst (shr_fexp prec emax m e l)).
Proof.
  intros H. unfold shr_fexp, shr.
  assert (H0 : 0 <= shr_m (shr_record_of_loc m l))
    by (destruct l as [|[]]; exact H).
  destruct (fexp prec emax (Zdigits2 m + e) - e); simpl;
    [assumption | now apply iter_shr_1_nonneg | assumption].
Qed.

Lemma round_nearest_even_nonneg (m : Z) (l : location) :
  0 <= m -> 0 <= round_nearest_even m l.
Proof.
  intros H. destruct l as [|[]]; simpl; try lia.
  destruct (Z.even m); lia.
Qed.

Lemma binary_round_aux_number (s : bool) (m e : Z) (l : location) :
  0 <= m -> binary_round_aux prec emax s m e l <> S754_nan.
Proof.
  intros H. unfold binary_round_aux.
  pose proof (shr_fexp_nonneg m e l H) as H1.
  destruct (shr_fexp prec emax m e l) as [mrs' e']. simpl in H1.
  pose proof (shr_fexp_nonneg _ e' loc_Exact
                (round_nearest_even_nonneg _ (loc_of_shr_record mrs') H1)) as H2.
  destruct (shr_fexp prec emax (round_nearest_even _ _) e' loc_Exact)
    as [mrs'' e'']. simpl in H2.
  destruct (shr_m mrs'') as [|p|p]; [discriminate | | lia].
  destruct (e'' <=? emax - prec); discriminate.
Qed.

Lemma binary_normalize_number (m e : Z) (s : bool) :
  binary_normalize prec emax m e s <> S754_nan.
Proof.
  unfold binary_normalize, binary_round.
  destruct m as [|p|p]; [discriminate | |];
    destruct (shl_align _ _ _) as [mz ez];
    apply binary_round_aux_number; lia.
Qed.

Lemma SFmul_number (x : spec_float) (s : bool) (m : positive) (e : Z) :
  x <> S754_nan -> SFmul prec emax x (S754_finite s m e) <> S754_nan.
Proof.
  intros H. destruct x; simpl; try discriminate; try congruence.
  apply binary_round_aux_number. lia.
Qed.

Lemma SFadd_number (x : spec_float) (s : bool) (m : positive) (e : Z) :
  x <> S754_nan -> SFadd prec emax x (S754_finite s m e) <> S754_nan.
Proof.
  intros H. destruct x; simpl; try discriminate; try congruence.
  apply binary_normalize_number.
Qed.

Lemma SFsub_number (x : spec_float) (s : bool) (m : positive) (e : Z) :
  x <> S754_nan -> SFsub prec emax x (S754_finite s m e) <> S754_nan.
Proof.
  intros H. destruct x; simpl; try discriminate; try congruence.
  apply binary_normalize_number.
Qed.

Lemma SFdiv_number (x : spec_float) (s : bool) (m : positive) (e : Z) :
  x <> S754_nan -> SFdiv prec emax x (S754_finite s m e) <> S754_nan.
Proof.
  intros H. destruct x as [sx|sx| |sx mx ex]; simpl;
    try discriminate; try congruence.
  unfold SFdiv_core_binary.
  set (e' := Z.min _ _). set (sh := ex - e - e').
  assert (Hm : 0 <= match sh with
                    | Z0 => Zpos mx
                    | Zpos _ => Z.shiftl (Zpos mx) sh
                    | Zneg _ => 0
                    end).
  { destruct sh; try lia. apply Z.shiftl_nonneg. lia. }
  destruct (Z.div_eucl _ (Zpos m)) as [q r] eqn:E.
  apply binary_round_aux_number.
  pose proof (Z.div_pos _ (Zpos m) Hm eq_refl) as Hq.
  unfold Z.div in Hq. rewrite E in Hq. exact Hq.
Qed.

Lemma two52_finite : exists m e, Prim2SF two52 = S754_finite false m e.
Proof. eexists _, _. vm_compute. reflexivity. Qed.

Lemma hundred_finite : exists m e, Prim2SF 100%float = S754_finite false m e.
Proof. eexists _, _. vm_compute. reflexivity. Qed.

Lemma rint_number (y : float) : is_nan y = false -> is_nan (rint y) = false.
Proof.
  intros H. unfold rint.
  destruct (abs y <? two52)%float; [|assumption].
  destruct two52_finite as (m & e & T).
  apply is_nan_Prim2SF in H.
  match goal with
  | |- is_nan (if is_zero ?r then _ else _) = false =>
      destruct (is_zero r) eqn:Z
  end.
  - destruct (get_sign y); reflexivity.
  - apply is_nan_Prim2SF.
    destruct (y <? 0)%float.
    + rewrite add_spec, sub_spec, T.
      apply SFadd_number, SFsub_number, H.
    + rewrite sub_spec, add_spec, T.
      apply SFsub_number, SFadd_number, H.
Qed.

Lemma np_round2_number (x : float) :
  is_nan x = false -> is_nan (np_round2 x) = false.
Proof.
  intros H. unfold np_round2.
  destruct hundred_finite as (m & e & T).
  apply is_nan_Prim2SF. rewrite div_spec, T. apply SFdiv_number.
  apply is_nan_Prim2SF, rint_number, is_nan_Prim2SF.
  rewrite mul_spec, T. apply SFmul_number. now apply is_nan_Prim2SF.
Qed.
End FloatFacts.

(** ** Columns and dictionaries *)

Module SeriesFacts.
Import Text Pandas App Props TextFacts FloatFacts.
Local Open Scope string_scope.

Lemma normalize_total_map (s : Series) :
  normalize_total s = map total_of s.
Proof.
  unfold normalize_total, round2, fillna0, to_numeric, str_strip, str_replace,
    str_map, astype_str.
  rewrite !map_map. apply map_ext. intros c. unfold total_of. simpl.
  destruct (Float64.to_double _) as [f|]; simpl.
  - destruct (is_nan f); reflexivity.
  - reflexivity.
Qed.

Lemma total_of_number (c : cell) :
  exists f, is_nan f = false /\ total_of c = Float (Float64.np_round2 f).
Proof.
  unfold total_of. eexists. split; [|reflexivity].
  destruct (Float64.to_double _) as [f|]; [|reflexivity].
  destruct (is_nan f) eqn:E; [reflexivity | exact E].
Qed.

Lemma total_of_notna (c : cell) : notna (total_of c) = true.
Proof.
  destruct (total_of_number c) as (f & Hf & ->).
  unfold notna. simpl. now rewrite np_round2_number.
Qed.

Lemma total_of_as_float (c : cell) : as_float (total_of c) = total_of c.
Proof. reflexivity. Qed.

Lemma normalize_id_map (s : Series) :
  normalize_id s
  = map (fun c => Str (drop_point_zero (strip (py_str c)))) s.
Proof.
  unfold normalize_id, str_replace, str_strip, str_map, astype_str.
  rewrite !map_map. apply map_ext. intros c.
  now rewrite replace_point_zero.
Qed.

Lemma normalize_email_map (s : Series) :
  normalize_email s = map (fun c => Str (lower (strip (py_str c)))) s.
Proof.
  unfold normalize_email, str_lower, str_strip, str_map, astype_str.
  rewrite !map_map. reflexivity.
Qed.

Lemma normalize_live_id_map (s : Series) :
  normalize_live_id s = map (fun c => Str (strip (py_str c))) s.
Proof.
  unfold normalize_live_id, str_strip, str_map, astype_str.
  rewrite !map_map. reflexivity.
Qed.

Lemma Series_map_length (d : dict) (s : Series) :
  List.length (Series_map d s) = List.length s.
Proof. unfold Series_map. now rewrite !length_map. Qed.

Lemma at_row_map (f : cell -> cell) (s : Series) (i : nat) :
  (i < List.length s)%nat -> at_row i (map f s) = f (at_row i s).
Proof.
  intros H. unfold at_row.
  rewrite (nth_indep _ NaN (f NaN)) by now rewrite length_map.
  apply map_nth.
Qed.

Lemma Series_map_at (d : dict) (s : Series) (i : nat) :
  (i < List.length s)%nat ->
  at_row i (Series_map d s)
  = match dict_get (at_row i s) d with
    | None => NaN
    | Some v =>
        if match infer_dtype (map snd d) with
           | int64 => negb (forallb found (map (fun k => dict_get k d) s))
           | float64 => true
           | object => false
           end
        then as_float v else v
    end.
Proof.
  intros H. unfold Series_map, at_row.
  set (g := fun o : option cell => match o with None => NaN | Some v => _ end).
  rewrite (nth_indep _ NaN (g (dict_get NaN d)))
    by now rewrite !length_map.
  rewrite map_map.
  rewrite (map_nth (fun k => g (dict_get k d)) s NaN i). reflexivity.
Qed.

(** *** Dictionaries under text keys *)

Lemma key_eqb_Str (k : cell) (t : string) :
  key_eqb k (Str t) = true <-> k = Str t.
Proof.
  destruct k as [s|z|f]; simpl; split; intros H; try discriminate.
  - apply String.eqb_eq in H. now subst.
  - injection H as ->. apply String.eqb_refl.
Qed.

Lemma dict_get_set (t : string) (k v : cell) (d : dict) :
  dict_get (Str t) (dict_set k v d)
  = if key_eqb k (Str t) then Some v else dict_get (Str t) d.
Proof.
  induction d as [|[k' v'] d IH]; simpl.
  - reflexivity.
  - destruct (key_eqb k' k) eqn:E; simpl.
    + destruct (key_eqb k (Str t)) eqn:F.
      * apply key_eqb_Str in F. subst k. now rewrite E.
      * destruct (key_eqb k' (Str t)) eqn:G; [|reflexivity].
        apply key_eqb_Str in G. subst k'.
        destruct k as [s|z|f]; simpl in E, F; try discriminate.
        apply String.eqb_eq in E. subst s.
        rewrite String.eqb_refl in F. discriminate.
    + destruct (key_eqb k' (Str t)) eqn:G.
      * apply key_eqb_Str in G. subst k'.
        destruct (key_eqb k (Str t)) eqn:F; [|reflexivity].
        apply key_eqb_Str in F. subst k. simpl in E.
        rewrite String.eqb_refl in E. discriminate.
      * exact IH.
Qed.

Lemma dict_get_fold (t : string) (l : list (cell * cell)) (d : dict) :
  dict_get (Str t)
    (fold_left (fun d kv => dict_set (fst kv) (snd kv) d) l d)
  = match last_value t l with
    | Some w => Some w
    | None => dict_get (Str t) d
    end.
Proof.
  revert d. induction l as [|[k v] l IH]; intros d; simpl.
  - reflexivity.
  - rewrite IH. destruct (last_value t l); [reflexivity|].
    rewrite dict_get_set. now destruct (key_eqb k (Str t)).
Qed.

Lemma dict_zip_get (t : string) (ks vs : Series) :
  dict_get (Str t) (dict_zip ks vs) = last_value t (combine ks vs).
Proof.
  unfold dict_zip. rewrite dict_get_fold.
  now destruct (last_value t (combine ks vs)).
Qed.

Lemma last_value_In (t : string) (l : list (cell * cell)) (w : cell) :
  last_value t l = Some w -> In (Str t, w) l.
Proof.
  induction l as [|[k v] l IH]; simpl; [discriminate|].
  destruct (last_value t l) as [w'|].
  - intros H. injection H as <-. right. now apply IH.
  - destruct (key_eqb k (Str t)) eqn:E; [|discriminate].
    intros H. injection H as <-. apply key_eqb_Str in E. subst. now left.
Qed.

Lemma last_value_found (t : string) (l : list (cell * cell)) :
  In (Str t) (map fst l) -> exists w, last_value t l = Some w.
Proof.
  induction l as [|[k v] l IH]; simpl; [tauto|].
  intros [H|H].
  - subst k. destruct (last_value t l); [eauto|].
    simpl. rewrite String.eqb_refl. eauto.
  - destruct (IH H) as (w & ->). eauto.
Qed.

Lemma last_value_none (t : string) (l : list (cell * cell)) :
  last_value t l = None -> ~ In (Str t) (map fst l).
Proof.
  intros H I. destruct (last_value_found t l I) as (w & E). congruence.
Qed.
End SeriesFacts.

(** ** The update, row by row *)

Module UpdateFacts.
Import Text Pandas App Props FrameFacts.
Local Open Scope string_scope.

Lemma append_assoc (a b c : string) : (a ++ b) ++ c = a ++ (b ++ c).
Proof. induction a as [|x a IH]; simpl; [reflexivity | now rewrite IH]. Qed.

Lemma padded_two (r : Z) :
  (0 <= r < 100)%Z -> two_digits (padded 2 r) = true.
Proof.
  intros H.
  assert (A : forallb (fun n => two_digits (padded 2 (Z.of_nat n)))
                      (seq 0 100) = true) by (vm_compute; reflexivity).
  rewrite forallb_forall in A.
  rewrite <- (Z2Nat.id r) by lia. apply A, in_seq. lia.
Qed.

Lemma format_2f_two_places (f : float) :
  finite f = true -> two_places (Float64.format_2f f).
Proof.
  unfold finite, Float64.format_2f.
  destruct (Prim2SF f) as [s|s| |s m e]; try discriminate; intros _.
  - exists (Float64.sign_text s ++ "0"), "0"%char, "0"%char.
    split; [now destruct s | split; reflexivity].
  - set (q := if (0 <=? e)%Z then _ else _).
    pose proof (padded_two (q mod 100) (Z.mod_pos_bound q 100 eq_refl)) as P.
    destruct (padded 2 (q mod 100)) as [|d1 [|d2 [|d3 t]]];
      try discriminate.
    simpl in P. apply andb_true_iff in P as (P1 & P2).
    exists (Float64.sign_text s ++ of_Z (q / 100)), d1, d2.
    split; [now rewrite append_assoc | now split].
Qed.

Lemma mapM_nth {A B : Type} (f : A -> result B) (l : list A) (bs : list B) :
  mapM f l = Ok bs ->
  List.length bs = List.length l
  /\ forall i a, nth_error l i = Some a ->
                 exists b, nth_error bs i = Some b /\ f a = Ok b.
Proof.
  revert bs. induction l as [|a l IH]; simpl; intros bs H.
  - injection H as <-. split; [reflexivity|]. intros [|i] a; discriminate.
  - apply bind_Ok in H as (b & Hb & H).
    apply bind_Ok in H as (bs' & Hbs & H). injection H as <-.
    destruct (IH _ Hbs) as (L & N). split; [simpl; now rewrite L|].
    intros [|i] a' Ha; simpl in *.
    + injection Ha as <-. eauto.
    + now apply N.
Qed.

Lemma cells_Some (ps : list picked) (s : Series) :
  cells ps = Some s ->
  List.length s = List.length ps
  /\ forall i p, nth_error ps i = Some p ->
                 exists c, p = One c /\ nth_error s i = Some c.
Proof.
  revert s. induction ps as [|[c|cs] ps IH]; simpl; intros s H.
  - injection H as <-. split; [reflexivity|]. intros [|i] p; discriminate.
  - destruct (cells ps) as [s'|]; [|discriminate]. injection H as <-.
    destruct (IH _ eq_refl) as (L & N). split; [simpl; now rewrite L|].
    intros [|i] p Hp; simpl in *.
    + injection Hp as <-. eauto.
    + now apply N.
  - discriminate.
Qed.

Lemma cells_None (ps : list picked) :
  cells ps = None ->
  exists i cs, nth_error ps i = Some (Several cs).
Proof.
  induction ps as [|[c|cs] ps IH]; simpl; intros H.
  - discriminate.
  - destruct (cells ps); [discriminate|].
    destruct (IH eq_refl) as (i & cs & E). now exists (S i), cs.
  - now exists 0%nat, cs.
Qed.

Lemma rows_length (df : DataFrame) : List.length (rows df) = index df.
Proof. unfold rows. now rewrite length_map, length_seq. Qed.

Lemma rows_nth_error (df : DataFrame) (i : nat) :
  (i < index df)%nat ->
  nth_error (rows df) i
  = Some (map (fun c => (fst c, at_row i (snd c))) (cols df)).
Proof.
  intros H. unfold rows. rewrite nth_error_map, nth_error_seq.
  apply Nat.ltb_lt in H. now rewrite H.
Qed.

Lemma row_getitem_pick (df : DataFrame) (i : nat) (l : string) :
  row_getitem (map (fun c => (fst c, at_row i (snd c))) (cols df)) l
  = pick i (select df l) l.
Proof.
  unfold row_getitem, pick, select.
  assert (E : filter (fun c : string * cell => String.eqb (fst c) l)
                (map (fun c => (fst c, at_row i (snd c))) (cols df))
              = map (fun c => (fst c, at_row i (snd c)))
                    (filter (named l) (cols df))).
  { induction (cols df) as [|c cs IH]; simpl; [reflexivity|].
    unfold named at 1. destruct (String.eqb (fst c) l); simpl; now rewrite IH. }
  rewrite E.
  destruct (filter (named l) (cols df)) as [|c1 [|c2 cs]]; simpl;
    try reflexivity.
  now rewrite !map_map.
Qed.

Lemma cell_at_pick (df : DataFrame) (i : nat) (l : string) :
  (i < index df)%nat -> cell_at df i l = pick i (select df l) l.
Proof.
  intros H. unfold cell_at.
  rewrite (nth_error_nth _ _ _ (rows_nth_error df i H)).
  apply row_getitem_pick.
Qed.

Lemma pick_One (i : nat) (ss : list Series) (l : string) (c : cell) :
  pick i ss l = Ok (One c) -> exists s, ss = [s] /\ at_row i s = c.
Proof.
  destruct ss as [|s [|s' ss]]; simpl; intros H; try discriminate.
  injection H as <-. eauto.
Qed.

(** the function of line 116 on a row whose two labels are borne once *)
Lemma substitute_unique (df : DataFrame) (col : string) (i : nat)
      (news olds : Series) :
  select df "New Score" = [news] -> select df col = [olds] ->
  substitute col (map (fun c => (fst c, at_row i (snd c))) (cols df))
  = substituted (at_row i news) (at_row i olds).
Proof.
  intros Hn Ho. unfold substitute, substituted.
  rewrite !row_getitem_pick, Hn, Ho. simpl.
  destruct (notna (at_row i news) && _); reflexivity.
Qed.

Lemma substituted_One (new old : cell) (p : picked) :
  substituted new old = Ok p -> exists c, p = One c.
Proof.
  unfold substituted. destruct (notna new && _).
  - destruct (py_float new); simpl; intros H; [|discriminate].
    injection H as <-. eauto.
  - intros H. injection H as <-. eauto.
Qed.

(** line 115 when [update_col] and ["New Score"] are each borne once *)
Lemma update_scores_unique (df df' : DataFrame) (col : string)
      (news olds : Series) :
  select df "New Score" = [news] -> select df col = [olds] ->
  update_scores df col = Ok df' ->
  exists s,
    df' = setitem df col s
    /\ List.length s = index df
    /\ forall i, (i < index df)%nat ->
         substituted (at_row i news) (at_row i olds) = Ok (One (at_row i s)).
Proof.
  intros Hn Ho H. unfold update_scores in H.
  apply bind_Ok in H as (ps & Hps & H).
  destruct (mapM_nth _ _ _ Hps) as (L & N).
  rewrite rows_length in L.
  destruct (cells ps) as [s|] eqn:C.
  - injection H as <-. destruct (cells_Some _ _ C) as (Ls & Nc).
    exists s. split; [reflexivity|]. split; [lia|].
    intros i Hi.
    destruct (N i _ (rows_nth_error df i Hi)) as (p & Hp & Hsub).
    rewrite (substitute_unique df col i news olds Hn Ho) in Hsub.
    destruct (Nc i p Hp) as (c & -> & Hc).
    unfold at_row at 3. now rewrite (nth_error_nth _ _ _ Hc).
  - exfalso. destruct (cells_None _ C) as (i & cs & E).
    assert (Hi : (i < index df)%nat).
    { rewrite <- L. apply nth_error_Some. congruence. }
    destruct (N i _ (rows_nth_error df i Hi)) as (p & Hp & Hsub).
    rewrite (substitute_unique df col i news olds Hn Ho) in Hsub.
    apply substituted_One in Hsub as (c & ->). congruence.
Qed.
End UpdateFacts.

(** ** Shapes: every column keeps one cell per row *)

Module ShapeFacts.
Import Text Pandas App Props FrameFacts JoinFacts SeriesFacts UpdateFacts.
Local Open Scope string_scope.

Lemma wf_strip_columns (df : DataFrame) : wf df -> wf (strip_columns df).
Proof.
  unfold wf, strip_columns. simpl. rewrite !Forall_forall.
  intros W c Hc. apply in_map_iff in Hc as (c0 & <- & Hc0). simpl.
  now apply W.
Qed.

Lemma wf_setitem (df : DataFrame) (l : string) (s : Series) :
  wf df -> List.length s = index df -> wf (setitem df l s).
Proof.
  unfold wf, setitem. simpl. rewrite !Forall_forall. intros W L c Hc.
  destruct (existsb (named l) (cols df)).
  - apply in_map_iff in Hc as (c0 & <- & Hc0).
    destruct (named l c0); [exact L | now apply W].
  - apply in_app_or in Hc as [Hc|[<-|[]]]; [now apply W | exact L].
Qed.

Lemma normalize_email_length (s : Series) :
  List.length (normalize_email s) = List.length s.
Proof. rewrite normalize_email_map. apply length_map. Qed.

Lemma normalize_id_length (s : Series) :
  List.length (normalize_id s) = List.length s.
Proof. rewrite normalize_id_map. apply length_map. Qed.

Lemma normalize_live_id_length (s : Series) :
  List.length (normalize_live_id s) = List.length s.
Proof. rewrite normalize_live_id_map. apply length_map. Qed.

Lemma normalize_total_length (s : Series) :
  List.length (normalize_total s) = List.length s.
Proof. rewrite normalize_total_map. apply length_map. Qed.

Lemma singleton_In {A : Type} (l : list A) (x : A) : l = [x] -> In x l.
Proof. intros ->. now left. Qed.

Lemma joined_wf_a (a b m : DataFrame) (e me lid tot : Series) (v : selection) :
  wf a -> readable a b m e me lid tot v ->
  wf (df_a (joined a b m e me lid tot v))
  /\ index (df_a (joined a b m e me lid tot v)) = index a.
Proof.
  intros W (He & _). split; [|reflexivity].
  apply wf_strip_columns in W.
  pose proof (wf_select _ _ _ W (singleton_In _ _ He)) as L.
  simpl in L. unfold joined. simpl.
  repeat apply wf_setitem; simpl;
    rewrite ?Series_map_length, ?normalize_id_length, ?Series_map_length,
      ?normalize_email_length; assumption.
Qed.

Lemma joined_wf_b (a b m : DataFrame) (e me lid tot : Series) (v : selection) :
  wf b -> readable a b m e me lid tot v ->
  wf (df_b (joined a b m e me lid tot v))
  /\ List.length lid = index b /\ List.length tot = index b.
Proof.
  intros W (_ & _ & _ & _ & Hlid & Htot).
  apply wf_strip_columns in W.
  pose proof (wf_select _ _ _ W (singleton_In _ _ Hlid)) as L1.
  pose proof (wf_select _ _ _ W (singleton_In _ _ Htot)) as L2.
  simpl in L1, L2. split; [|split; assumption].
  unfold joined. simpl.
  repeat apply wf_setitem; simpl;
    rewrite ?normalize_total_length, ?normalize_live_id_length; assumption.
Qed.

Lemma update_scores_shape (df df' : DataFrame) (col : string) :
  wf df -> update_scores df col = Ok df' -> wf df' /\ index df' = index df.
Proof.
  intros W H. unfold update_scores in H.
  apply bind_Ok in H as (ps & Hps & H).
  destruct (mapM_nth _ _ _ Hps) as (L & _). rewrite rows_length in L.
  destruct (cells ps) as [s|] eqn:C.
  - injection H as <-. destruct (cells_Some _ _ C) as (Ls & _).
    split; [|reflexivity]. apply wf_setitem; [assumption | lia].
  - injection H as <-. now split.
Qed.

Lemma count_partition (s : Series) :
  (count_notna s + count_isna s = List.length s)%nat.
Proof.
  unfold count_notna, count_isna, notna.
  induction s as [|c s IH]; simpl; [reflexivity|].
  destruct (isna c); simpl; lia.
Qed.
End ShapeFacts.

(** ** Headers *)

Module HeaderFacts.
Import Text Pandas App Props FrameFacts JoinFacts.
Local Open Scope string_scope.

Lemma bearers_one (l : string) (df : DataFrame) :
  bearers l df = 1%nat -> exists s, select (strip_columns df) l = [s].
Proof.
  unfold bearers. destruct (select (strip_columns df) l) as [|s [|s' ss]];
    simpl; intros H; try discriminate. eauto.
Qed.

Lemma bearers_some (l : string) (df : DataFrame) :
  (1 <= bearers l df)%nat -> exists v, getitem (strip_columns df) l = Ok v.
Proof.
  unfold bearers, getitem.
  destruct (select (strip_columns df) l) as [|s [|s' ss]]; simpl; intros H;
    eauto. lia.
Qed.

Lemma readable_bearers (a b m : DataFrame) (e me lid tot : Series)
      (v : selection) :
  readable a b m e me lid tot v ->
  bearers email_col a = 1%nat
  /\ (bearers "Student ID Number" a <= 1)%nat
  /\ bearers "email" m = 1%nat
  /\ (1 <= bearers "Student ID Number" m)%nat
  /\ bearers "Student ID Number" b = 1%nat
  /\ bearers "Total" b = 1%nat.
Proof.
  intros (He & Hs & Hme & Hv & Hlid & Htot). unfold bearers.
  rewrite He, Hme, Hlid, Htot. repeat split; try assumption.
  apply getitem_Ok in Hv.
  destruct (select (strip_columns m) "Student ID Number");
    [congruence | simpl; lia].
Qed.
End HeaderFacts.

(** ** What the update keeps and what the drop removes *)

Module DropFacts.
Import Text Pandas App Props FrameFacts JoinFacts SeriesFacts UpdateFacts.
Local Open Scope string_scope.

Lemma columns_strip_columns (df : DataFrame) :
  columns (strip_columns df) = map strip (columns df).
Proof. unfold columns, strip_columns. simpl. now rewrite !map_map. Qed.

Lemma drop_Ok (df d : DataFrame) (ls : list string) :
  drop df ls = Ok d ->
  d = mkDataFrame (index df)
        (filter (fun c => negb (existsb (String.eqb (fst c)) ls)) (cols df)).
Proof.
  unfold drop. destruct (filter _ ls); [|discriminate].
  intros H. now injection H as <-.
Qed.

Lemma columns_filter (g : string -> bool) (cs : list (string * Series)) :
  map fst (filter (fun c => g (fst c)) cs) = filter g (map fst cs).
Proof.
  induction cs as [|c cs IH]; simpl; [reflexivity|].
  destruct (g (fst c)); simpl; now rewrite IH.
Qed.

Lemma select_filter (g : string -> bool) (df : DataFrame) (l : string) :
  g l = true ->
  select (mkDataFrame (index df) (filter (fun c => g (fst c)) (cols df))) l
  = select df l.
Proof.
  intros G. unfold select. simpl. f_equal.
  induction (cols df) as [|c cs IH]; simpl; [reflexivity|].
  destruct (named l c) eqn:N.
  - apply named_eq in N. rewrite N, G. simpl.
    rewrite (proj2 (named_eq l c) N). now rewrite IH.
  - destruct (g (fst c)); simpl; [rewrite N|]; exact IH.
Qed.

Lemma selectbox_In (options : list string) (choice : nat) :
  options <> [] -> In (selectbox options choice) options.
Proof.
  intros H. unfold selectbox.
  destruct (Nat.lt_ge_cases choice (List.length options)) as [L|L].
  - now apply nth_In.
  - rewrite nth_overflow by assumption.
    destruct options; [congruence | now left].
Qed.

Lemma filter_columns_setitem (g : string -> bool) (df : DataFrame)
      (l : string) (s : Series) :
  g l = false ->
  filter g (columns (setitem df l s)) = filter g (columns df).
Proof.
  intros G. rewrite columns_setitem.
  destruct (existsb (named l) (cols df)); [reflexivity|].
  rewrite filter_app. simpl. rewrite G. apply app_nil_r.
Qed.

Lemma columns_setitem_present (df : DataFrame) (l : string) (s : Series) :
  select df l <> [] -> columns (setitem df l s) = columns df.
Proof.
  intros H. rewrite columns_setitem.
  destruct (existsb (named l) (cols df)) eqn:E; [reflexivity|].
  apply select_nil_existsb in E. congruence.
Qed.

(** line 115 leaves the labels alone, and the columns under other labels *)
Lemma update_scores_frame (df df' : DataFrame) (col : string) :
  update_scores df col = Ok df' ->
  df' = df \/ exists s, df' = setitem df col s
                        /\ List.length s = index df.
Proof.
  intros H. unfold update_scores in H.
  apply bind_Ok in H as (ps & Hps & H).
  destruct (mapM_nth _ _ _ Hps) as (L & _). rewrite rows_length in L.
  destruct (cells ps) as [s|] eqn:C; injection H as <-; [|now left].
  right. exists s. split; [reflexivity|].
  destruct (cells_Some _ _ C). lia.
Qed.

Lemma select_not_nil_In (df : DataFrame) (l : string) :
  select df l <> [] <-> In l (columns df).
Proof.
  rewrite <- existsb_named_columns. split; intros H.
  - destruct (existsb (named l) (cols df)) eqn:E; [reflexivity|].
    apply select_nil_existsb in E. congruence.
  - intros E. apply select_nil_existsb in E. congruence.
Qed.

(** the columns of the joined grade book *)
Lemma joined_select (a b m : DataFrame) (e me lid tot : Series)
      (v : selection) :
  readable a b m e me lid tot v ->
  let j := joined a b m e me lid tot v in
  let E := normalize_email e in
  let IDS := normalize_id (Series_map (email_to_id j) E) in
  let NEWS := Series_map (score_map j) IDS in
  select (df_a j) email_col = [E]
  /\ select (df_a j) "Student ID Number" = [IDS]
  /\ (forall news, In news (select (df_a j) "New Score") -> news = NEWS)
  /\ select (df_a j) "New Score" <> []
  /\ (forall l, l <> email_col -> kept l = true ->
                select (df_a j) l = select (strip_columns a) l)
  /\ filter kept (columns (df_a j)) = filter kept (map strip (columns a)).
Proof.
  intros (He & Hs & _). simpl. unfold joined. simpl.
  repeat split.
  - rewrite !select_setitem_other by discriminate.
    rewrite select_setitem_same, He. reflexivity.
  - rewrite select_setitem_other by discriminate.
    rewrite !select_setitem_same.
    rewrite select_setitem_other by discriminate.
    destruct (select (strip_columns a) "Student ID Number")
      as [|s1 [|s2 ss]]; simpl in *; try reflexivity. lia.
  - intros news. rewrite select_setitem_same.
    destruct (select _ "New Score") as [|s1 ss].
    + intros [<-|[]]. reflexivity.
    + intros H. apply in_map_iff in H as (x & <- & _). reflexivity.
  - rewrite select_setitem_same.
    destruct (select _ "New Score"); discriminate.
  - intros l Hl K. unfold kept in K. simpl in K.
    apply negb_true_iff, orb_false_iff in K as (K1 & K2).
    apply orb_false_iff in K2 as (K2 & _).
    apply String.eqb_neq in K1, K2.
    rewrite !select_setitem_other by congruence. reflexivity.
  - rewrite !filter_columns_setitem by reflexivity.
    rewrite columns_setitem_present by (rewrite He; discriminate).
    now rewrite columns_strip_columns.
Qed.
End DropFacts.

(** ** Rows the identity map does not know *)

Module NanFacts.
Import Text Pandas App Props FrameFacts JoinFacts SeriesFacts UpdateFacts.
Import ShapeFacts DropFacts.
Local Open Scope string_scope.

Lemma Series_map_miss (d : dict) (s : Series) (i : nat) :
  (i < List.length s)%nat -> dict_get (at_row i s) d = None ->
  at_row i (Series_map d s) = NaN.
Proof. intros L H. rewrite Series_map_at by assumption. now rewrite H. Qed.

Lemma normalize_id_nan (s : Series) (i : nat) :
  (i < List.length s)%nat -> at_row i s = NaN ->
  at_row i (normalize_id s) = Str "nan".
Proof.
  intros L H. rewrite normalize_id_map, at_row_map by assumption.
  rewrite H. vm_compute. reflexivity.
Qed.

Lemma combine_nth_error (ks vs : Series) (k : nat) (x y : cell) :
  nth_error (combine ks vs) k = Some (x, y) ->
  nth_error ks k = Some x /\ nth_error vs k = Some y.
Proof.
  revert vs k. induction ks as [|a ks IH]; intros [|b vs] [|k]; simpl;
    try discriminate.
  - intros H. injection H as <- <-. now split.
  - apply IH.
Qed.

Lemma map_fst_combine (ks vs : Series) :
  List.length ks = List.length vs -> map fst (combine ks vs) = ks.
Proof.
  revert vs. induction ks as [|a ks IH]; intros [|b vs]; simpl;
    try discriminate; [reflexivity|].
  intros H. f_equal. apply IH. lia.
Qed.

(** a text key that is among the keys is in the dictionary, with the
    value of one of the rows that bear it *)
Lemma dict_zip_hit (t : string) (ks vs : Series) :
  List.length ks = List.length vs -> In (Str t) ks ->
  exists k w, dict_get (Str t) (dict_zip ks vs) = Some w
              /\ nth_error ks k = Some (Str t)
              /\ nth_error vs k = Some w.
Proof.
  intros L I. rewrite dict_zip_get.
  rewrite <- (map_fst_combine ks vs L) in I.
  destruct (last_value_found _ _ I) as (w & E).
  pose proof (last_value_In _ _ _ E) as J.
  apply In_nth_error in J as (k & Hk).
  apply combine_nth_error in Hk as (H1 & H2). now exists k, w.
Qed.

Lemma Series_map_total (ks tot : Series) (s : Series) (i : nat) (w : cell) :
  (i < List.length s)%nat ->
  dict_get (at_row i s) (dict_zip ks (normalize_total tot)) = Some w ->
  In w (normalize_total tot) ->
  at_row i (Series_map (dict_zip ks (normalize_total tot)) s) = w
  /\ notna w = true.
Proof.
  intros L H I. rewrite Series_map_at by assumption. rewrite H.
  rewrite normalize_total_map in I.
  apply in_map_iff in I as (c & <- & _).
  split; [|apply total_of_notna].
  rewrite total_of_as_float. now destruct (match infer_dtype _ with
                                           | int64 => _ | float64 => _
                                           | object => _ end).
Qed.

(** line 115 needs one column named ["New Score"] when there is a row *)
Lemma update_scores_new_score (df df' : DataFrame) (col : string) (i : nat) :
  update_scores df col = Ok df' -> (i < index df)%nat ->
  exists news, select df "New Score" = [news].
Proof.
  intros H Hi. unfold update_scores in H.
  apply bind_Ok in H as (ps & Hps & _).
  destruct (mapM_nth _ _ _ Hps) as (_ & N).
  destruct (N i _ (rows_nth_error df i Hi)) as (p & _ & Hsub).
  unfold substitute in Hsub. rewrite row_getitem_pick in Hsub.
  destruct (select df "New Score") as [|s1 [|s2 ss]]; simpl in Hsub;
    try discriminate. eauto.
Qed.

Lemma substituted_notna (new old c : cell) :
  substituted new old = Ok (One c) -> notna old = true -> notna c = true.
Proof.
  unfold substituted. destruct (notna new && _).
  - destruct (py_float new); simpl; intros H; [|discriminate].
    injection H as <-. reflexivity.
  - intros H. injection H as <-. tauto.
Qed.

(** a row with a new score still has one after line 115 *)
Lemma update_keeps_score (df : DataFrame) (col : string) (u : Updated)
      (i : nat) (news : Series) :
  update df col = Ok u -> (i < index df)%nat ->
  In news (select df "New Score") -> notna (at_row i news) = true ->
  exists n, select (df_after u) "New Score" = [n]
            /\ notna (at_row i n) = true
            /\ updated_count u = count_notna n.
Proof.
  intros H Hi I Nn. unfold update in H.
  apply bind_Ok in H as (d' & Hd & H).
  apply bind_Ok in H as (du & Hdu & H).
  apply bind_Ok in H as (x & Hx & H).
  apply bind_Ok in H as (n & Hn & H).
  injection H as <-. simpl.
  pose proof (getitem_series _ _ _ _ Hx Hn) as Sel.
  exists n. split; [exact Sel|]. split; [|reflexivity].
  destruct (update_scores_new_score _ _ _ _ Hd Hi) as (news' & E).
  rewrite E in I. destruct I as [->|[]].
  destruct (update_scores_frame _ _ _ Hd) as [->|(s & -> & _)].
  - rewrite E in Sel. injection Sel as <-. exact Nn.
  - destruct (string_dec col "New Score") as [->|Hne].
    + destruct (update_scores_unique _ _ _ _ _ E E Hd) as (s' & Es & _ & S).
      rewrite select_setitem_same, E in Sel. simpl in Sel.
      injection Sel as <-.
      assert (s = s').
      { assert (F : select (setitem df "New Score" s) "New Score"
                    = select (setitem df "New Score" s') "New Score")
          by now rewrite Es.
        rewrite !select_setitem_same, E in F. simpl in F. congruence. }
      subst s'. exact (substituted_notna _ _ _ (S i Hi) Nn).
    + rewrite select_setitem_other in Sel by assumption.
      rewrite E in Sel. injection Sel as <-. exact Nn.
Qed.
End NanFacts.

(** ** Counting the rows with and without a new score *)

Module CountFacts.
Import Text Pandas App Props FrameFacts JoinFacts SeriesFacts UpdateFacts.
Import ShapeFacts DropFacts NanFacts.
Local Open Scope string_scope.

Lemma filter_rows (f : cell -> bool) (s : Series) (k : nat) :
  List.length (filter f s)
  = List.length (filter (fun i => f (at_row (i - k) s))
                        (seq k (List.length s))).
Proof.
  revert k. induction s as [|c s IH]; intros k; [reflexivity|].
  cbn [List.length seq filter]. rewrite Nat.sub_diag.
  unfold at_row at 1. cbn [nth].
  assert (E : filter (fun i => f (at_row (i - k) (c :: s)))
                (seq (S k) (List.length s))
              = filter (fun i => f (at_row (i - S k) s))
                  (seq (S k) (List.length s))).
  { apply filter_ext_in. intros i Hi. apply in_seq in Hi.
    replace (i - k)%nat with (S (i - S k)) by lia. reflexivity. }
  destruct (f c); cbn [List.length]; rewrite E, <- IH; reflexivity.
Qed.

Lemma count_rows (s : Series) (n : nat) :
  List.length s = n ->
  count_notna s = List.length (rows_with s n)
  /\ count_isna s = List.length (rows_without s n).
Proof.
  intros <-. unfold count_notna, count_isna, rows_with, rows_without.
  split.
  - rewrite (filter_rows notna s 0). f_equal. apply filter_ext.
    intros i. now rewrite Nat.sub_0_r.
  - rewrite (filter_rows isna s 0). f_equal. apply filter_ext.
    intros i. now rewrite Nat.sub_0_r.
Qed.

Lemma rows_same (s s' : Series) (n : nat) :
  (forall i, (i < n)%nat -> notna (at_row i s) = notna (at_row i s')) ->
  rows_with s n = rows_with s' n /\ rows_without s n = rows_without s' n.
Proof.
  intros H. unfold rows_with, rows_without. split.
  - apply filter_ext_in. intros i Hi. apply in_seq in Hi. apply H. lia.
  - apply filter_ext_in. intros i Hi. apply in_seq in Hi.
    assert (E := H i ltac:(lia)). unfold notna in E.
    now apply (f_equal negb) in E; rewrite !negb_involutive in E.
Qed.

Lemma substituted_same_notna (new c : cell) :
  substituted new new = Ok (One c) -> notna c = notna new.
Proof.
  unfold substituted.
  destruct (notna new && String.eqb (strip (py_str new)) "0.00") eqn:C.
  - apply andb_true_iff in C as (N & _). rewrite N.
    destruct (py_float new); simpl; intros H; [|discriminate].
    now injection H as <-.
  - intros H. now injection H as <-.
Qed.

(** the counts of lines 131 and 132 are those of the rows that had a new
    score, and had none, before line 115 *)
Lemma update_counts (df : DataFrame) (col : string) (u : Updated) :
  wf df -> select df "New Score" <> [] ->
  update df col = Ok u ->
  exists news,
    select df "New Score" = [news]
    /\ updated_count u = List.length (rows_with news (index df))
    /\ not_found_count u = List.length (rows_without news (index df)).
Proof.
  intros W N0 H. unfold update in H.
  apply bind_Ok in H as (d' & Hd & H).
  apply bind_Ok in H as (du & Hdu & H).
  apply bind_Ok in H as (x & Hx & H).
  apply bind_Ok in H as (n & Hn & H).
  injection H as <-. simpl.
  pose proof (getitem_series _ _ _ _ Hx Hn) as Sel.
  destruct (update_scores_shape _ _ _ W Hd) as (Wd & Id).
  pose proof (wf_select _ _ _ Wd (singleton_In _ _ Sel)) as Ln.
  rewrite Id in Ln.
  destruct (count_rows n (index df) Ln) as (C1 & C2).
  assert (K : exists news,
             select df "New Score" = [news]
             /\ forall i, (i < index df)%nat ->
                          notna (at_row i n) = notna (at_row i news)).
  { destruct (update_scores_frame _ _ _ Hd) as [->|(s & -> & _)].
    - exists n. now split.
    - destruct (string_dec col "New Score") as [->|Hne].
      + rewrite select_setitem_same in Sel.
        destruct (select df "New Score") as [|news [|n2 ns]] eqn:En;
          simpl in Sel; try congruence.
        injection Sel as <-. exists news. split; [reflexivity|].
        destruct (update_scores_unique _ _ _ _ _ En En Hd)
          as (s' & Es & _ & S).
        assert (s = s').
        { assert (F : select (setitem df "New Score" s) "New Score"
                      = select (setitem df "New Score" s') "New Score")
            by now rewrite Es.
          rewrite !select_setitem_same, En in F. simpl in F. congruence. }
        subst s'. intros i Hi.
        exact (substituted_same_notna _ _ (S i Hi)).
      + rewrite select_setitem_other in Sel by assumption.
        exists n. now split. }
  destruct K as (news & En & P). exists news.
  destruct (rows_same n news (index df) P) as (R1 & R2).
  split; [exact En|]. split; congruence.
Qed.
End CountFacts.

(** * The specified behaviour *)

Import Text Pandas App Props Sample.
Import FrameFacts JoinFacts TextFacts FloatFacts SeriesFacts UpdateFacts.
Import ShapeFacts HeaderFacts DropFacts NanFacts CountFacts.
Open Scope string_scope.

(** C6.  The total of a live-scores cell is read with its commas taken
    out, a text that is no number (an empty cell and an empty text among
    them) counts as 0, and the number is rounded to hundredths by one rule,
    [np_round2], the half-to-even rounding of the scaled binary value:
    ["1,234.5"] gives 1234.5 and ["10.005"], whose binary value lies just above
    the tie, gives 10.01. *)
Theorem total_normalization :
  normalize_total [Str "1,234.5"] = [Float 1234.5%float]
  /\ normalize_total [Str "10.005"] = [Float (Float64.of_decimal false 1001 (-2))]
  /\ map py_str (normalize_total [Str "10.005"]) = ["10.01"]
  /\ normalize_total [Str ""; NaN] = [Float 0%float; Float 0%float]
  /\ (forall (s : Series) (i : nat) (t : string),
         nth_error s i = Some (Str t) ->
         Float64.to_double (strip (replace "," "" t)) = None ->
         nth_error (normalize_total s) i = Some (Float 0%float))
  /\ (forall s : Series,
         Forall (fun c => exists f, is_nan f = false
                                    /\ c = Float (Float64.np_round2 f))
                (normalize_total s)).
Proof.
  split; [vm_compute; reflexivity|].
  split; [vm_compute; reflexivity|].
  split; [vm_compute; reflexivity|].
  split; [vm_compute; reflexivity|].
  split.
  - intros s i t Hi Ht. rewrite normalize_total_map.
    rewrite nth_error_map, Hi. simpl. unfold total_of. simpl py_str.
    rewrite Ht. vm_compute. reflexivity.
  - intros s. rewrite normalize_total_map. apply Forall_forall.
    intros c Hc. apply in_map_iff in Hc as (c0 & <- & _).
    apply total_of_number.
Qed.

Lemma total_normalization_witness :
  nth_error (normalize_total [Float 12.5%float; Str "absent"]) 1
  = Some (Float 0%float).
Proof.
  apply (proj1 (proj2 (proj2 (proj2 (proj2 total_normalization))))
           [Float 12.5%float; Str "absent"] 1%nat "absent");
    vm_compute; reflexivity.
Defined.

(** C2.  On the grade-book side (line 85) every occurrence of [".0"] is
    taken out, not only one at the end: ["10.05"] becomes ["105"].  On the
    live-scores side (line 86) none is taken out: a float identifier 1001.0
    stays ["1001.0"]. *)
Lemma normalize_id_inner_point_zero :
  normalize_id [Str "10.05"] = [Str "105"]
  /\ normalize_id [Str "1001.0"] = [Str "1001"]
  /\ normalize_live_id [Float 1001%float] = [Str "1001.0"].
Proof. repeat split; vm_compute; reflexivity. Qed.

(** C3, as stated, fails: the identifier ["1 .0"] is normalised to ["1 "],
    and that one to ["1"]. *)
Lemma normalize_id_not_idempotent :
  normalize_id (normalize_id [Str "1 .0"]) <> normalize_id [Str "1 .0"].
Proof. vm_compute. discriminate. Qed.

(** C3, amended.  Normalising a normalised identifier changes nothing when
    the trimmed text of the identifier has no white space inside and no two
    points in a row; such are the integers, with or without their [".0"]. *)
Theorem normalize_id_settles (s : Series) :
  forallb plain s = true ->
  normalize_id (normalize_id s) = normalize_id s.
Proof.
  intros H. rewrite !normalize_id_map, map_map.
  apply map_ext_in. intros c Hc.
  rewrite forallb_forall in H. specialize (H c Hc).
  unfold plain in H. apply andb_true_iff in H as (Hs & Hp).
  simpl py_str. f_equal.
  rewrite strip_no_space by now apply no_space_drop.
  now apply drop_point_zero_settled.
Qed.

Lemma normalize_id_settles_witness :
  normalize_id (normalize_id [Float 1001%float; Str " 1001.0 "; Int 7; NaN])
  = normalize_id [Float 1001%float; Str " 1001.0 "; Int 7; NaN].
Proof. apply normalize_id_settles. vm_compute. reflexivity. Defined.

(** C4, as stated, fails: the target cell of the worked example does not
    become ["85.00"]. *)
Lemma worked_example_is_not_85 :
  ~ exists u, reconcile grade_book live_scores identity_map 1 = Ok u
              /\ select (df_updated u) "Quiz 1" = [[Str "85.00"]].
Proof.
  intros (u & H & E). vm_compute in H. injection H as <-.
  vm_compute in E. discriminate.
Qed.

(** C4, amended.  In the worked example the row resolves to the identifier
    ["1001"]; the comma of ["85,0"] is taken out as a thousands separator,
    so the total is 850.0 and the target cell becomes ["850.00"]. *)
Theorem worked_example :
  exists j u,
    prepare grade_book live_scores identity_map = Ok j
    /\ select (df_a j) "Student ID Number" = [[Str "1001"]]
    /\ select (df_b j) "Total" = [[Float 850%float]]
    /\ select (df_a j) "New Score" = [[Float 850%float]]
    /\ reconcile grade_book live_scores identity_map 1 = Ok u
    /\ select (df_updated u) "Quiz 1" = [[Str "850.00"]].
Proof.
  eexists. eexists.
  split; [vm_compute; reflexivity|].
  repeat split; vm_compute; reflexivity.
Qed.

(** C1.  The update step writes, in the row of a grade book whose target
    cell is [old] and whose new score is [new], the new score in the [.2f]
    format when [new] is present and the text of [old], once trimmed, is
    ["0.00"], and leaves [old] as it is in every other case.  The format of
    a finite score ends in a point and two digits. *)
Theorem conditional_substitution
        (df df' : DataFrame) (col : string) (i : nat) (new old : cell) :
  update_scores df col = Ok df' ->
  (i < index df)%nat ->
  cell_at df i "New Score" = Ok (One new) ->
  cell_at df i col = Ok (One old) ->
  exists c,
    cell_at df' i col = Ok (One c)
    /\ (notna new = true /\ strip (py_str old) = "0.00" ->
        exists f, py_float new = Ok f
                  /\ c = Str (Float64.format_2f f)
                  /\ (finite f = true -> two_places (Float64.format_2f f)))
    /\ (~ (notna new = true /\ strip (py_str old) = "0.00") -> c = old).
Proof.
  intros H Hi Hn Ho.
  rewrite cell_at_pick in Hn, Ho by assumption.
  apply pick_One in Hn as (news & Hn & <-).
  apply pick_One in Ho as (olds & Ho & <-).
  destruct (update_scores_unique _ _ _ _ _ Hn Ho H) as (s & -> & L & S).
  specialize (S i Hi). exists (at_row i s). split.
  - rewrite cell_at_pick by (simpl; assumption).
    rewrite select_setitem_same, Ho. reflexivity.
  - unfold substituted in S. split.
    + intros (N & T). rewrite N in S. apply String.eqb_eq in T.
      rewrite T in S. simpl in S.
      destruct (py_float (at_row i news)) as [f|e]; [|discriminate].
      simpl in S. injection S as S. exists f.
      split; [reflexivity|]. split; [now symmetry|].
      apply format_2f_two_places.
    + intros N.
      destruct (notna (at_row i news)) eqn:E1;
        destruct (String.eqb (strip (py_str (at_row i olds))) "0.00") eqn:E2;
        simpl in S; try (injection S as S; now symmetry).
      exfalso. apply N. split; [reflexivity | now apply String.eqb_eq].
Qed.

Lemma conditional_substitution_witness :
  exists c,
    cell_at written_book 0 "Quiz 1" = Ok (One c)
    /\ (notna (Float 850%float) = true /\ strip (py_str (Str "0.00")) = "0.00" ->
        exists f, py_float (Float 850%float) = Ok f
                  /\ c = Str (Float64.format_2f f)
                  /\ (finite f = true -> two_places (Float64.format_2f f)))
    /\ (~ (notna (Float 850%float) = true
           /\ strip (py_str (Str "0.00")) = "0.00") -> c = Str "0.00").
Proof.
  apply (conditional_substitution joined_book written_book "Quiz 1" 0
           (Float 850%float) (Str "0.00")).
  - vm_compute. reflexivity.
  - simpl. lia.
  - vm_compute. reflexivity.
  - vm_compute. reflexivity.
Defined.

(** C5.  Whenever the reconciliation of a well-formed grade book yields its
    summary, [updated_count] is the number of the rows of the grade book
    that the join gave a new score, [not_found_count] the number of the
    rows it gave none, and the two add up to the number of rows of the
    grade book.  A row with a new score is counted as updated whether or
    not line 116 wrote its cell. *)
Theorem counts_cover_rows
        (a b m : DataFrame) (choice : nat) (u : Updated) :
  wf a ->
  reconcile a b m choice = Ok u ->
  exists j news,
    prepare a b m = Ok j
    /\ select (df_a j) "New Score" = [news]
    /\ updated_count u = List.length (rows_with news (index a))
    /\ not_found_count u = List.length (rows_without news (index a))
    /\ (updated_count u + not_found_count u = index a)%nat.
Proof.
  intros W H. unfold reconcile in H.
  apply bind_Ok in H as (j & Hj & H).
  pose proof Hj as Hp.
  apply prepare_Ok in Hj as (e & me & lid & tot & v & R & ->).
  destruct (joined_wf_a a b m e me lid tot v W R) as (Wj & Ij).
  destruct (joined_select a b m e me lid tot v R)
    as (_ & _ & _ & SN0 & _ & _).
  destruct (update_counts _ _ _ Wj SN0 H) as (news & En & C1 & C2).
  rewrite Ij in C1, C2.
  exists (joined a b m e me lid tot v), news.
  split; [exact Hp|]. split; [exact En|].
  split; [exact C1|]. split; [exact C2|].
  pose proof (wf_select _ _ _ Wj (singleton_In _ _ En)) as L.
  rewrite Ij in L.
  destruct (count_rows news (index a) L) as (D1 & D2).
  rewrite C1, C2, <- D1, <- D2. rewrite count_partition. exact L.
Qed.

Lemma counts_cover_rows_witness :
  exists u j news,
    reconcile grade_book_2 live_scores_2 identity_map_2 1 = Ok u
    /\ prepare grade_book_2 live_scores_2 identity_map_2 = Ok j
    /\ select (df_a j) "New Score" = [news]
    /\ updated_count u = List.length (rows_with news (index grade_book_2))
    /\ not_found_count u
       = List.length (rows_without news (index grade_book_2))
    /\ (updated_count u + not_found_count u = index grade_book_2)%nat.
Proof.
  destruct (reconcile grade_book_2 live_scores_2 identity_map_2 1)
    as [u|x] eqn:H; [|vm_compute in H; discriminate].
  destruct (counts_cover_rows grade_book_2 live_scores_2 identity_map_2 1 u)
    as (j & news & P).
  - repeat constructor.
  - exact H.
  - exists u, j, news. split; [reflexivity | exact P].
Defined.

(** C7, as stated, fails: a grade book whose key header is written in lower
    case has the headers of the worked example up to letter case, and its
    key column is not found. *)
Lemma lower_case_header_not_found :
  map lower (columns grade_book_lower) = map lower (columns grade_book)
  /\ prepare grade_book_lower live_scores identity_map
     = Raise (KeyError "SIS Login ID").
Proof. split; vm_compute; reflexivity. Qed.

(** C7, amended.  The join goes through whenever, once the headers are
    stripped of the white space around them, each required name is borne,
    letter for letter, by one column of its dataset (["SIS Login ID"] in the
    grade book, ["email"] in the identity map, ["Student ID Number"] and
    ["Total"] in the live scores), the identity map has a column named
    ["Student ID Number"], and the grade book has at most one. *)
Theorem headers_found_up_to_blanks (a b m : DataFrame) :
  bearers email_col a = 1%nat ->
  (bearers "Student ID Number" a <= 1)%nat ->
  bearers "email" m = 1%nat ->
  (1 <= bearers "Student ID Number" m)%nat ->
  bearers "Student ID Number" b = 1%nat ->
  bearers "Total" b = 1%nat ->
  exists j, prepare a b m = Ok j.
Proof.
  intros He Hs Hme Hv Hlid Htot.
  apply bearers_one in He as (e & He).
  apply bearers_one in Hme as (me & Hme).
  apply bearers_some in Hv as (v & Hv).
  apply bearers_one in Hlid as (lid & Hlid).
  apply bearers_one in Htot as (tot & Htot).
  exists (joined a b m e me lid tot v).
  apply prepare_readable. repeat split; assumption.
Qed.

Lemma headers_found_up_to_blanks_witness :
  exists j, prepare grade_book_padded live_scores identity_map = Ok j.
Proof.
  apply headers_found_up_to_blanks; vm_compute; try reflexivity;
    repeat constructor.
Defined.

(** C8.  A failure of a run never escapes and never comes with a result.
    When reading the sheet raises, the page shows that error and the
    warning; when the sheet is empty, the warning; when the join raises,
    as it does when a required column is missing, the processing error
    alone; when the update raises, the two previews and the processing
    error.  A result (the updated preview, the counts, the download) is
    shown only when the join and the update both went through. *)
Theorem failures_are_reported
        (a b : DataFrame) (choice : nat) (pressed : bool) :
  (forall e,
      run (Some a) (Some b) (Raise e) choice pressed
      = [Subheader "Loading Mapping Sheet..."; SheetError e; MappingWarning])
  /\ (forall m, empty m = true ->
        run (Some a) (Some b) (Ok m) choice pressed
        = [Subheader "Loading Mapping Sheet..."; MappingWarning])
  /\ (forall m e, empty m = false -> prepare a b m = Raise e ->
        run (Some a) (Some b) (Ok m) choice pressed
        = [Subheader "Loading Mapping Sheet..."; ProcessingError e])
  /\ (forall m,
        bearers email_col a = 0%nat \/ bearers "email" m = 0%nat
        \/ bearers "Student ID Number" m = 0%nat
        \/ bearers "Student ID Number" b = 0%nat
        \/ bearers "Total" b = 0%nat ->
        exists e, prepare a b m = Raise e)
  /\ (forall m j e, empty m = false -> prepare a b m = Ok j ->
        update (df_a j) (selectbox (columns (df_a j)) choice) = Raise e ->
        run (Some a) (Some b) (Ok m) choice true
        = [Subheader "Loading Mapping Sheet...";
           Subheader "Preview of Grade Book"; Frame (df_a j);
           Subheader "Preview of Live Scores Sheet"; Frame (df_b j);
           ProcessingError e])
  /\ (forall sheet,
        no_output (run (Some a) (Some b) sheet choice pressed) = false ->
        exists m j u,
          sheet = Ok m /\ pressed = true /\ prepare a b m = Ok j
          /\ update (df_a j) (selectbox (columns (df_a j)) choice) = Ok u
          /\ In (Download (df_updated u))
                (run (Some a) (Some b) sheet choice pressed)).
Proof.
  split; [reflexivity|].
  split; [intros m E; unfold run; simpl; now rewrite E|].
  split; [intros m e E P; unfold run; simpl; now rewrite E, P|].
  split.
  { intros m Hm. destruct (prepare a b m) as [j|e] eqn:P; [|eauto].
    exfalso. apply prepare_Ok in P as (e & me & lid & tot & v & R & _).
    apply readable_bearers in R. lia. }
  split; [intros m j e E P U; unfold run; simpl; now rewrite E, P, U|].
  intros sheet N. unfold run in N |- *. unfold no_output in N.
  destruct sheet as [m|e]; simpl in N |- *; [|discriminate].
  destruct (empty m); simpl in N; [discriminate|]. simpl.
  destruct (prepare a b m) as [j|e] eqn:P; simpl in N; [|discriminate].
  destruct pressed; simpl in N; [|discriminate].
  destruct (update _ _) as [u|e] eqn:U; simpl in N; [|discriminate].
  exists m, j, u. repeat split; try assumption.
  cbn. repeat (first [left; reflexivity | right]).
Qed.

Lemma failures_are_reported_witness :
  run (Some grade_book_keyless) (Some live_scores) (Ok identity_map) 0 true
  = [Subheader "Loading Mapping Sheet...";
     ProcessingError (KeyError "SIS Login ID")]
  /\ (exists e, prepare grade_book_keyless live_scores identity_map = Raise e)
  /\ run (Some grade_book) (Some live_scores) (Ok (mkDataFrame 0 [])) 0 true
     = [Subheader "Loading Mapping Sheet..."; MappingWarning]
  /\ exists j,
      run (Some grade_book_twice) (Some live_scores) (Ok identity_map) 1 true
      = [Subheader "Loading Mapping Sheet...";
         Subheader "Preview of Grade Book"; Frame (df_a j);
         Subheader "Preview of Live Scores Sheet"; Frame (df_b j);
         ProcessingError ValueError].
Proof.
  split.
  { apply (proj1 (proj2 (proj2
             (failures_are_reported grade_book_keyless live_scores 0 true))));
      vm_compute; reflexivity. }
  split.
  { apply (proj1 (proj2 (proj2 (proj2
             (failures_are_reported grade_book_keyless live_scores 0 true))))).
    left. vm_compute. reflexivity. }
  split.
  { apply (proj1 (proj2
             (failures_are_reported grade_book live_scores 0 true))).
    vm_compute. reflexivity. }
  eexists.
  apply (proj1 (proj2 (proj2 (proj2 (proj2
           (failures_are_reported grade_book_twice live_scores 1 true)))))
           identity_map).
  - vm_compute. reflexivity.
  - vm_compute. reflexivity.
  - vm_compute. reflexivity.
Defined.

(** C9.  The updated grade book has no column named ["Student ID Number"]
    and none named ["New Score"].  Before the drop these two columns hold
    the identifiers and the scores of the join, whatever the grade book had
    under these names; the other headers come out stripped and in order,
    and the columns that are neither the key nor the target keep their
    cells. *)
Theorem temporary_columns_removed
        (a b m : DataFrame) (choice : nat) (u : Updated) :
  reconcile a b m choice = Ok u ->
  exists j E,
    prepare a b m = Ok j
    /\ select (df_a j) email_col = [E]
    /\ select (df_a j) "Student ID Number"
       = [normalize_id (Series_map (email_to_id j) E)]
    /\ select (df_a j) "New Score"
       = [Series_map (score_map j)
            (normalize_id (Series_map (email_to_id j) E))]
    /\ ~ In "Student ID Number" (columns (df_updated u))
    /\ ~ In "New Score" (columns (df_updated u))
    /\ columns (df_updated u) = filter kept (map strip (columns a))
    /\ (forall l, kept l = true -> l <> email_col ->
                  l <> selectbox (columns (df_a j)) choice ->
                  select (df_updated u) l = select (strip_columns a) l).
Proof.
  intros H. unfold reconcile in H.
  apply bind_Ok in H as (j & Hj & H).
  pose proof Hj as Hp.
  apply prepare_Ok in Hj as (e & me & lid & tot & v & R & ->).
  destruct (joined_select a b m e me lid tot v R)
    as (SE & SI & SN & SN0 & SO & SC).
  set (j := joined a b m e me lid tot v) in *.
  set (col := selectbox (columns (df_a j)) choice) in *.
  unfold update in H.
  apply bind_Ok in H as (d' & Hd & H).
  apply bind_Ok in H as (du & Hdu & H).
  apply bind_Ok in H as (x & Hx & H).
  apply bind_Ok in H as (n & Hn & H).
  injection H as <-. simpl.
  pose proof (getitem_series _ _ _ _ Hx Hn) as Sel.
  apply drop_Ok in Hdu. subst du.
  assert (Hcol : In col (columns (df_a j))).
  { apply selectbox_In. intros E0.
    assert (I : In email_col (columns (df_a j)))
      by (apply select_not_nil_In; rewrite SE; discriminate).
    rewrite E0 in I. exact I. }
  assert (Hc : columns d' = columns (df_a j)).
  { destruct (update_scores_frame _ _ _ Hd) as [->|(s & -> & _)];
      [reflexivity|].
    apply columns_setitem_present. now apply select_not_nil_In. }
  assert (Ho : forall l, l <> col -> select d' l = select (df_a j) l).
  { intros l Hl.
    destruct (update_scores_frame _ _ _ Hd) as [->|(s & -> & _)];
      [reflexivity|].
    apply select_setitem_other. congruence. }
  assert (Hk : columns (mkDataFrame (index d')
                 (filter (fun c => negb (existsb (String.eqb (fst c))
                                           ["Student ID Number"; "New Score"]))
                         (cols d')))
               = filter kept (columns d')).
  { unfold columns. simpl. apply (columns_filter kept). }
  exists j, (normalize_email e).
  split; [exact Hp|]. split; [exact SE|]. split; [exact SI|].
  split.
  { assert (L : List.length (select (df_a j) "New Score") = 1%nat).
    { destruct (update_scores_frame _ _ _ Hd) as [->|(s & -> & _)].
      - now rewrite Sel.
      - destruct (string_dec col "New Score") as [->|Hne].
        + rewrite select_setitem_same in Sel.
          destruct (select (df_a j) "New Score") as [|s1 [|s2 ss]];
            simpl in *; try reflexivity; try congruence.
        + rewrite select_setitem_other in Sel by assumption.
          now rewrite Sel. }
    destruct (select (df_a j) "New Score") as [|s1 [|s2 ss]] eqn:E1;
      simpl in L; try discriminate.
    f_equal. apply SN. now left. }
  split.
  { rewrite Hk. intros I. apply filter_In in I as (_ & K). discriminate. }
  split.
  { rewrite Hk. intros I. apply filter_In in I as (_ & K). discriminate. }
  split.
  { rewrite Hk, Hc. exact SC. }
  intros l K Hle Hlc.
  transitivity (select d' l); [exact (select_filter kept d' l K)|].
  rewrite Ho by assumption. now apply SO.
Qed.

Lemma temporary_columns_removed_witness :
  exists u,
    reconcile grade_book_named live_scores identity_map 3 = Ok u
    /\ columns (df_updated u) = ["SIS Login ID"; "Quiz 1"].
Proof.
  destruct (reconcile grade_book_named live_scores identity_map 3)
    as [u|e] eqn:H; [|vm_compute in H; discriminate].
  exists u. split; [reflexivity|].
  destruct (temporary_columns_removed _ _ _ _ _ H)
    as (j & E & _ & _ & _ & _ & _ & _ & C & _).
  rewrite C. vm_compute. reflexivity.
Defined.

(** C10.  A grade-book row whose normalised email is not a key of the
    identity map gets the identifier ["nan"].  If a live-scores row has the
    normalised identifier ["nan"] too, there is such a row (the last one)
    whose total is the new score of every such grade-book row; that total
    is never missing, so after the update the row still has a new score and
    is among the rows [updated_count] counts. *)
Theorem unresolved_rows_take_nan_score
        (a b m : DataFrame) (j : Joined) (i : nat) (e : cell) :
  wf a -> wf b ->
  prepare a b m = Ok j ->
  (i < index a)%nat ->
  cell_at (df_a j) i email_col = Ok (One e) ->
  dict_get e (email_to_id j) = None ->
  cell_at (df_a j) i "Student ID Number" = Ok (One (Str "nan"))
  /\ ((exists k0, (k0 < index b)%nat
                  /\ cell_at (df_b j) k0 "Student ID Number"
                     = Ok (One (Str "nan"))) ->
      exists k t,
        (k < index b)%nat
        /\ cell_at (df_b j) k "Student ID Number" = Ok (One (Str "nan"))
        /\ cell_at (df_b j) k "Total" = Ok (One t)
        /\ notna t = true
        /\ (forall news, In news (select (df_a j) "New Score") ->
                         at_row i news = t)
        /\ (forall col u, update (df_a j) col = Ok u ->
              exists n, select (df_after u) "New Score" = [n]
                        /\ notna (at_row i n) = true
                        /\ updated_count u = count_notna n)).
Proof.
  intros Wa Wb Hj Hi He Hmiss.
  apply prepare_Ok in Hj as (ce & me & lid & tot & v & R & ->).
  destruct (joined_select a b m ce me lid tot v R)
    as (SE & SI & SN & SN0 & _ & _).
  destruct (joined_wf_b a b m ce me lid tot v Wb R) as (_ & Llid & Ltot).
  pose proof R as (Hce & _).
  pose proof (wf_select _ _ _ (wf_strip_columns _ Wa) (singleton_In _ _ Hce))
    as Lce. simpl in Lce.
  set (jj := joined a b m ce me lid tot v) in *.
  assert (Ia : index (df_a jj) = index a) by reflexivity.
  assert (Ib : index (df_b jj) = index b) by reflexivity.
  rewrite cell_at_pick in He by (rewrite Ia; exact Hi).
  rewrite SE in He. simpl in He. injection He as He. subst e.
  set (E := normalize_email ce) in *.
  assert (LE : List.length E = index a)
    by (unfold E; now rewrite normalize_email_length).
  set (S0 := Series_map (email_to_id jj) E) in *.
  assert (LS0 : List.length S0 = index a)
    by (unfold S0; now rewrite Series_map_length).
  assert (Hid : at_row i (normalize_id S0) = Str "nan").
  { apply normalize_id_nan; [lia|].
    apply Series_map_miss; [lia | exact Hmiss]. }
  split.
  { rewrite cell_at_pick by (rewrite Ia; exact Hi).
    rewrite SI. simpl. now rewrite Hid. }
  intros (k0 & Hk0 & Hc0).
  assert (SLid : select (df_b jj) "Student ID Number" = [normalize_live_id lid]).
  { unfold jj, joined. simpl. rewrite select_setitem_other by discriminate.
    destruct R as (_ & _ & _ & _ & Hlid & _).
    rewrite select_setitem_same, Hlid. reflexivity. }
  assert (STot : select (df_b jj) "Total" = [normalize_total tot]).
  { unfold jj, joined. simpl.
    destruct R as (_ & _ & _ & _ & _ & Htot).
    rewrite select_setitem_same, select_setitem_other by discriminate.
    rewrite Htot. reflexivity. }
  rewrite cell_at_pick in Hc0 by (rewrite Ib; exact Hk0).
  rewrite SLid in Hc0. simpl in Hc0. injection Hc0 as Hc0.
  assert (LL : List.length (normalize_live_id lid) = index b)
    by now rewrite normalize_live_id_length.
  assert (LT : List.length (normalize_total tot) = index b)
    by now rewrite normalize_total_length.
  assert (Inan : In (Str "nan") (normalize_live_id lid)).
  { rewrite <- Hc0. apply nth_In. lia. }
  assert (LLT : List.length (normalize_live_id lid)
                = List.length (normalize_total tot)) by congruence.
  destruct (dict_zip_hit "nan" _ _ LLT Inan) as (k & w & Hw & Hk1 & Hk2).
  assert (Hk : (k < index b)%nat).
  { rewrite <- LL. apply nth_error_Some. congruence. }
  assert (Hnew : at_row i (Series_map (score_map jj) (normalize_id S0)) = w
                 /\ notna w = true).
  { apply Series_map_total.
    - rewrite normalize_id_length. lia.
    - rewrite Hid. exact Hw.
    - eapply nth_error_In. exact Hk2. }
  destruct Hnew as (Hnew & Nw).
  exists k, w. split; [exact Hk|].
  split.
  { rewrite cell_at_pick by (rewrite Ib; exact Hk). rewrite SLid. simpl.
    unfold at_row. now rewrite (nth_error_nth _ _ _ Hk1). }
  split.
  { rewrite cell_at_pick by (rewrite Ib; exact Hk). rewrite STot. simpl.
    unfold at_row. now rewrite (nth_error_nth _ _ _ Hk2). }
  split; [exact Nw|].
  split.
  { intros news I. rewrite (SN news I). exact Hnew. }
  intros col u Hu.
  destruct (select (df_a jj) "New Score") as [|news ss] eqn:E1;
    [congruence|].
  apply (update_keeps_score (df_a jj) col u i news Hu).
  - rewrite Ia. exact Hi.
  - rewrite E1. now left.
  - rewrite (SN news (or_introl eq_refl)), Hnew. exact Nw.
Qed.

Lemma unresolved_rows_take_nan_score_witness :
  exists j,
    prepare grade_book_2 live_scores_2 identity_map_2 = Ok j
    /\ cell_at (df_a j) 1 "Student ID Number" = Ok (One (Str "nan")).
Proof.
  destruct (prepare grade_book_2 live_scores_2 identity_map_2)
    as [j|x] eqn:H; [|vm_compute in H; discriminate].
  exists j. split; [reflexivity|].
  apply (unresolved_rows_take_nan_score
           grade_book_2 live_scores_2 identity_map_2 j 1 (Str "nobody@x.com")).
  - repeat constructor.
  - repeat constructor.
  - exact H.
  - simpl. lia.
  - vm_compute in H. injection H as <-. vm_compute. reflexivity.
  - vm_compute in H. injection H as <-. vm_compute. reflexivity.
Defined.

(** * Further properties of the script *)

(** ** Dictionaries: the last row under a key wins *)

Module DictFacts.
Import Text Pandas App Props SeriesFacts NanFacts.
Local Open Scope string_scope.

Lemma last_value_nth (t : string) (l : list (cell * cell)) (k : nat) (w : cell) :
  nth_error l k = Some (Str t, w) ->
  (forall k' w', (k < k')%nat -> nth_error l k' <> Some (Str t, w')) ->
  last_value t l = Some w.
Proof.
  revert k. induction l as [|[key v] l IH]; intros [|k] H L; simpl in *;
    try discriminate.
  - injection H as -> ->.
    destruct (last_value t l) as [w'|] eqn:E.
    + exfalso. apply last_value_In, In_nth_error in E as (k' & Hk').
      apply (L (S k') w'); [lia | exact Hk'].
    + simpl. now rewrite String.eqb_refl.
  - rewrite (IH k H); [reflexivity|].
    intros k' w' Hk'. apply (L (S k') w'). lia.
Qed.

Lemma nth_error_combine (ks vs : Series) (k : nat) (x y : cell) :
  nth_error ks k = Some x -> nth_error vs k = Some y ->
  nth_error (combine ks vs) k = Some (x, y).
Proof.
  revert vs k. induction ks as [|a ks IH]; intros [|b vs] [|k]; simpl;
    try discriminate.
  - intros H1 H2. injection H1 as <-. injection H2 as <-. reflexivity.
  - apply IH.
Qed.

Lemma dict_zip_last (ks vs : Series) (k : nat) (t : string) (w : cell) :
  nth_error ks k = Some (Str t) -> nth_error vs k = Some w ->
  (forall k', (k < k')%nat -> nth_error ks k' <> Some (Str t)) ->
  dict_get (Str t) (dict_zip ks vs) = Some w.
Proof.
  intros Hk Hv L. rewrite dict_zip_get.
  apply (last_value_nth t _ k w).
  - now apply nth_error_combine.
  - intros k' w' Hk' E. apply combine_nth_error in E as (E & _).
    exact (L k' Hk' E).
Qed.

Lemma dict_zip_absent (ks vs : Series) (t : string) :
  ~ In (Str t) ks -> dict_get (Str t) (dict_zip ks vs) = None.
Proof.
  intros N. rewrite dict_zip_get.
  destruct (last_value t (combine ks vs)) as [w|] eqn:E; [|reflexivity].
  exfalso. apply N. apply last_value_In in E.
  now apply in_combine_l in E.
Qed.
End DictFacts.

Import DictFacts.

(** X1.  [dict(zip(keys, values))] of lines 81 and 96 keeps, for a text
    key, the value of the last row that bears it, and has no entry for a
    text that is not among the keys. *)
Theorem dict_zip_last_write_wins
        (ks vs : Series) (k : nat) (t : string) (w : cell) :
  (nth_error ks k = Some (Str t) -> nth_error vs k = Some w ->
   (forall k', (k < k')%nat -> nth_error ks k' <> Some (Str t)) ->
   dict_get (Str t) (dict_zip ks vs) = Some w)
  /\ (~ In (Str t) ks -> dict_get (Str t) (dict_zip ks vs) = None).
Proof. split; [apply dict_zip_last | apply dict_zip_absent]. Qed.

Lemma dict_zip_last_write_wins_witness :
  dict_get (Str "a@x.com")
    (dict_zip [Str "a@x.com"; Str "b@x.com"; Str "a@x.com"]
              [Int 1; Int 2; Int 3]) = Some (Int 3)
  /\ dict_get (Str "c@x.com")
       (dict_zip [Str "a@x.com"; Str "b@x.com"; Str "a@x.com"]
                 [Int 1; Int 2; Int 3]) = None.
Proof.
  split.
  - apply (proj1 (dict_zip_last_write_wins _ _ 2 "a@x.com" (Int 3)));
      try reflexivity.
    intros [|[|[|[|k']]]] H; try lia; discriminate.
  - apply (proj2 (dict_zip_last_write_wins
                    [Str "a@x.com"; Str "b@x.com"; Str "a@x.com"]
                    [Int 1; Int 2; Int 3] 0 "c@x.com" (Int 0))).
    simpl. intros [H|[H|[H|[]]]]; discriminate.
Defined.

(** X2.  After lines 89 to 93 no total of the live scores is missing, and
    the column has as many cells as before: an empty or unreadable total
    has become 0 and rounding never turns a number into NaN. *)
Theorem totals_never_missing (s : Series) :
  Forall (fun c => notna c = true) (normalize_total s)
  /\ List.length (normalize_total s) = List.length s.
Proof.
  split; [|apply normalize_total_length].
  rewrite normalize_total_map. apply Forall_forall. intros c Hc.
  apply in_map_iff in Hc as (c0 & <- & _). apply total_of_notna.
Qed.

(** ** The update and the drop keep the frame in shape *)

Module KeepFacts.
Import Text Pandas App Props FrameFacts JoinFacts SeriesFacts UpdateFacts.
Import ShapeFacts DropFacts.
Local Open Scope string_scope.

Lemma wf_drop (df d : DataFrame) (ls : list string) :
  wf df -> drop df ls = Ok d -> wf d /\ index d = index df.
Proof.
  intros W H. apply drop_Ok in H. subst d. split; [|reflexivity].
  unfold wf in *. simpl. rewrite Forall_forall in *.
  intros c Hc. apply filter_In in Hc as (Hc & _). now apply W.
Qed.

Lemma drop_present (df : DataFrame) (ls : list string) :
  (forall l, In l ls -> In l (columns df)) -> exists d, drop df ls = Ok d.
Proof.
  intros H. unfold drop.
  destruct (filter (fun l => negb (existsb (named l) (cols df))) ls)
    as [|l rest] eqn:E; [eauto|].
  exfalso.
  assert (I : In l (filter (fun l => negb (existsb (named l) (cols df))) ls))
    by (rewrite E; now left).
  apply filter_In in I as (I & N).
  apply H, existsb_named_columns in I. rewrite I in N. discriminate.
Qed.

Lemma update_shape (df : DataFrame) (col : string) (u : Updated) :
  wf df -> update df col = Ok u ->
  wf (df_after u) /\ index (df_after u) = index df
  /\ wf (df_updated u) /\ index (df_updated u) = index df.
Proof.
  intros W H. unfold update in H.
  apply bind_Ok in H as (d' & Hd & H).
  apply bind_Ok in H as (du & Hdu & H).
  apply bind_Ok in H as (x & Hx & H).
  apply bind_Ok in H as (n & Hn & H).
  injection H as <-. simpl.
  destruct (update_scores_shape _ _ _ W Hd) as (Wd & Id).
  destruct (wf_drop _ _ _ Wd Hdu) as (Wu & Iu).
  repeat split; congruence.
Qed.
End KeepFacts.

Import KeepFacts.

(** X3.  Line 115 changes nothing but the chosen column: when
    [update_col] is one of the labels of the frame, the frame that comes
    out has the same number of rows and the same labels in the same order,
    and every column under another label has the cells it had. *)
Theorem update_touches_only_target (df df' : DataFrame) (col : string) :
  In col (columns df) ->
  update_scores df col = Ok df' ->
  index df' = index df
  /\ columns df' = columns df
  /\ (forall l, l <> col -> select df' l = select df l).
Proof.
  intros I H.
  destruct (update_scores_frame _ _ _ H) as [->|(s & -> & _)].
  - repeat split.
  - split; [reflexivity|]. split.
    + apply columns_setitem_present. now apply select_not_nil_In.
    + intros l Hl. apply select_setitem_other. congruence.
Qed.

Lemma update_touches_only_target_witness :
  index written_book = index joined_book
  /\ columns written_book = columns joined_book
  /\ (forall l, l <> "Quiz 1" -> select written_book l = select joined_book l).
Proof.
  apply (update_touches_only_target joined_book written_book "Quiz 1").
  - simpl. tauto.
  - vm_compute. reflexivity.
Defined.

(** X4.  The frames of the script stay rectangular.  From well-formed
    uploads (one cell per row in every column) the join yields a
    well-formed grade book and live sheet with their numbers of rows, and
    the update and the drop of lines 115 to 120 yield a well-formed updated
    grade book with as many rows as the upload. *)
Theorem frames_stay_rectangular
        (a b m : DataFrame) (j : Joined) :
  wf a -> wf b ->
  prepare a b m = Ok j ->
  wf (df_a j) /\ index (df_a j) = index a
  /\ wf (df_b j) /\ index (df_b j) = index b
  /\ (forall col u, update (df_a j) col = Ok u ->
        wf (df_updated u) /\ index (df_updated u) = index a).
Proof.
  intros Wa Wb H.
  apply prepare_Ok in H as (e & me & lid & tot & v & R & ->).
  destruct (joined_wf_a a b m e me lid tot v Wa R) as (W1 & I1).
  destruct (joined_wf_b a b m e me lid tot v Wb R) as (W2 & _).
  split; [exact W1|]. split; [exact I1|]. split; [exact W2|].
  split; [reflexivity|].
  intros col u Hu.
  destruct (update_shape _ _ _ W1 Hu) as (_ & _ & W3 & I3).
  split; [exact W3 | congruence].
Qed.

Lemma frames_stay_rectangular_witness :
  exists j,
    prepare grade_book_2 live_scores_2 identity_map_2 = Ok j
    /\ wf (df_a j) /\ index (df_a j) = index grade_book_2.
Proof.
  destruct (prepare grade_book_2 live_scores_2 identity_map_2)
    as [j|x] eqn:H; [|vm_compute in H; discriminate].
  exists j. split; [reflexivity|].
  destruct (frames_stay_rectangular grade_book_2 live_scores_2
              identity_map_2 j) as (W & I & _).
  - repeat constructor.
  - repeat constructor.
  - exact H.
  - now split.
Defined.

(** ** The join, row by row *)

Module JoinRowFacts.
Import Text Pandas App Props FrameFacts JoinFacts SeriesFacts UpdateFacts.
Import ShapeFacts DropFacts NanFacts DictFacts.
Local Open Scope string_scope.

Lemma at_row_nth_error (s : Series) (k : nat) :
  (k < List.length s)%nat -> nth_error s k = Some (at_row k s).
Proof. intros H. now apply nth_error_nth'. Qed.

(** the columns of the two joined frames and their lengths *)
Lemma joined_columns (a b m : DataFrame) (e me lid tot : Series)
      (v : selection) :
  wf a -> wf b -> readable a b m e me lid tot v ->
  let j := joined a b m e me lid tot v in
  exists E IDS LIDS TOTS,
    select (df_a j) email_col = [E]
    /\ select (df_a j) "Student ID Number" = [IDS]
    /\ select (df_b j) "Student ID Number" = [LIDS]
    /\ select (df_b j) "Total" = [TOTS]
    /\ List.length E = index a /\ List.length IDS = index a
    /\ List.length LIDS = index b /\ List.length TOTS = index b
    /\ IDS = normalize_id (Series_map (email_to_id j) E)
    /\ TOTS = normalize_total tot
    /\ score_map j = dict_zip LIDS TOTS
    /\ select (df_a j) "New Score" <> []
    /\ (forall news, In news (select (df_a j) "New Score") ->
                     news = Series_map (score_map j) IDS).
Proof.
  intros Wa Wb R j.
  destruct (joined_select a b m e me lid tot v R)
    as (SE & SI & SN & SN0 & _ & _).
  destruct (joined_wf_b a b m e me lid tot v Wb R) as (_ & Llid & Ltot).
  pose proof R as (He & _ & _ & _ & Hlid & Htot).
  pose proof (wf_select _ _ _ (wf_strip_columns _ Wa) (singleton_In _ _ He))
    as Le. simpl in Le.
  exists (normalize_email e),
         (normalize_id (Series_map (email_to_id j) (normalize_email e))),
         (normalize_live_id lid), (normalize_total tot).
  split; [exact SE|]. split; [exact SI|].
  split.
  { unfold j, joined. simpl. rewrite select_setitem_other by discriminate.
    rewrite select_setitem_same, Hlid. reflexivity. }
  split.
  { unfold j, joined. simpl.
    rewrite select_setitem_same, select_setitem_other by discriminate.
    rewrite Htot. reflexivity. }
  split; [now rewrite normalize_email_length|].
  split; [now rewrite normalize_id_length, Series_map_length,
            normalize_email_length|].
  split; [now rewrite normalize_live_id_length|].
  split; [now rewrite normalize_total_length|].
  repeat split; try reflexivity; assumption.
Qed.

Lemma cell_at_One (df : DataFrame) (i : nat) (l : string) (s : Series)
      (c : cell) :
  (i < index df)%nat -> select df l = [s] ->
  (cell_at df i l = Ok (One c) <-> at_row i s = c).
Proof.
  intros Hi Hs. rewrite cell_at_pick by assumption. rewrite Hs. simpl.
  split; [intros H; now injection H | now intros ->].
Qed.

(** the new score of a row, from the text of its identifier *)
Lemma new_score_found (LIDS tot IDS : Series) (i k : nat) (t : string)
      (w : cell) :
  (i < List.length IDS)%nat -> at_row i IDS = Str t ->
  List.length LIDS = List.length (normalize_total tot) ->
  (k < List.length LIDS)%nat ->
  at_row k LIDS = Str t -> at_row k (normalize_total tot) = w ->
  (forall k', (k < k')%nat -> (k' < List.length LIDS)%nat ->
              at_row k' LIDS <> Str t) ->
  at_row i (Series_map (dict_zip LIDS (normalize_total tot)) IDS) = w
  /\ notna w = true.
Proof.
  intros Li Hi LL Lk Hk Hw Last.
  apply Series_map_total; [assumption | | ].
  - rewrite Hi. apply (dict_zip_last _ _ k).
    + rewrite at_row_nth_error by assumption. now rewrite Hk.
    + rewrite at_row_nth_error by lia. now rewrite Hw.
    + intros k' Hk' E.
      assert (Lk' : (k' < List.length LIDS)%nat)
        by (apply nth_error_Some; congruence).
      apply (Last k' Hk' Lk'). unfold at_row.
      now rewrite (nth_error_nth _ _ _ E).
  - rewrite <- Hw. apply nth_In. lia.
Qed.

Lemma new_score_absent (LIDS TOTS IDS : Series) (i : nat) (t : string) :
  (i < List.length IDS)%nat -> at_row i IDS = Str t ->
  (forall k, (k < List.length LIDS)%nat -> at_row k LIDS <> Str t) ->
  at_row i (Series_map (dict_zip LIDS TOTS) IDS) = NaN.
Proof.
  intros Li Hi N. apply Series_map_miss; [assumption|].
  rewrite Hi. apply dict_zip_absent. intros I.
  apply In_nth_error in I as (k & Hk).
  assert (Lk : (k < List.length LIDS)%nat)
    by (apply nth_error_Some; congruence).
  apply (N k Lk). unfold at_row. now rewrite (nth_error_nth _ _ _ Hk).
Qed.

(** a row the identity map does not know has the identifier ["nan"] *)
Lemma unknown_email_id (d : dict) (E : Series) (i : nat) :
  (i < List.length E)%nat -> dict_get (at_row i E) d = None ->
  at_row i (normalize_id (Series_map d E)) = Str "nan".
Proof.
  intros L H. apply normalize_id_nan.
  - now rewrite Series_map_length.
  - now apply Series_map_miss.
Qed.
End JoinRowFacts.

Import JoinRowFacts.

(** X5.  The new score of a grade-book row is looked up by the text of its
    normalised identifier: it is the total of the last live-scores row that
    has this identifier, a total that is never missing, and it is missing
    when no live-scores row has it. *)
Theorem new_score_joins_on_identifier
        (a b m : DataFrame) (j : Joined) (i : nat) (t : string) :
  wf a -> wf b ->
  prepare a b m = Ok j ->
  (i < index a)%nat ->
  cell_at (df_a j) i "Student ID Number" = Ok (One (Str t)) ->
  (forall k w,
      (k < index b)%nat ->
      cell_at (df_b j) k "Student ID Number" = Ok (One (Str t)) ->
      cell_at (df_b j) k "Total" = Ok (One w) ->
      (forall k', (k < k')%nat -> (k' < index b)%nat ->
                  cell_at (df_b j) k' "Student ID Number"
                  <> Ok (One (Str t))) ->
      notna w = true
      /\ forall news, In news (select (df_a j) "New Score") ->
                      at_row i news = w)
  /\ ((forall k, (k < index b)%nat ->
                 cell_at (df_b j) k "Student ID Number" <> Ok (One (Str t))) ->
      forall news, In news (select (df_a j) "New Score") ->
                   at_row i news = NaN).
Proof.
  intros Wa Wb H Hi Hid.
  apply prepare_Ok in H as (e & me & lid & tot & v & R & ->).
  destruct (joined_columns a b m e me lid tot v Wa Wb R)
    as (E & IDS & LIDS & TOTS & SE & SI & SL & ST & LE & LI & LL & LT
        & -> & -> & Hsm & SN0 & SN).
  set (j := joined a b m e me lid tot v) in *.
  set (IDS := normalize_id (Series_map (email_to_id j) E)) in *.
  assert (Ia : index (df_a j) = index a) by reflexivity.
  assert (Ib : index (df_b j) = index b) by reflexivity.
  assert (Hia : (i < index (df_a j))%nat) by (rewrite Ia; exact Hi).
  apply (cell_at_One _ _ _ _ _ Hia SI) in Hid.
  split.
  - intros k w Hk Hkid Hkw Last.
    assert (Hkb : (k < index (df_b j))%nat) by (rewrite Ib; exact Hk).
    apply (cell_at_One _ _ _ _ _ Hkb SL) in Hkid.
    apply (cell_at_One _ _ _ _ _ Hkb ST) in Hkw.
    destruct (new_score_found LIDS tot IDS i k t w) as (Hw & Nw);
      try assumption; try lia.
    + intros k' Hk' Lk' E'. apply (Last k' Hk'); [lia|].
      assert (Hb : (k' < index (df_b j))%nat) by (rewrite Ib; lia).
      apply (proj2 (cell_at_One _ _ _ _ _ Hb SL)). exact E'.
    + split; [exact Nw|]. intros news I.
      rewrite (SN news I), Hsm. exact Hw.
  - intros N news I. rewrite (SN news I), Hsm.
    apply (new_score_absent _ _ _ i t); [lia | exact Hid |].
    intros k Lk E'. apply (N k); [lia|].
    assert (Hb : (k < index (df_b j))%nat) by (rewrite Ib; lia).
    apply (proj2 (cell_at_One _ _ _ _ _ Hb SL)). exact E'.
Qed.

Lemma new_score_joins_on_identifier_witness :
  exists j,
    prepare grade_book live_scores identity_map = Ok j
    /\ forall news, In news (select (df_a j) "New Score") ->
                    at_row 0 news = Float 850%float.
Proof.
  destruct (prepare grade_book live_scores identity_map)
    as [j|x] eqn:H; [|vm_compute in H; discriminate].
  exists j. split; [reflexivity|].
  apply (proj1 (new_score_joins_on_identifier
                  grade_book live_scores identity_map j 0 "1001"
                  ltac:(repeat constructor) ltac:(repeat constructor)
                  H ltac:(simpl; lia)
                  ltac:(vm_compute in H; injection H as <-;
                        vm_compute; reflexivity)) 0%nat (Float 850%float)).
  - simpl. lia.
  - vm_compute in H. injection H as <-. vm_compute. reflexivity.
  - vm_compute in H. injection H as <-. vm_compute. reflexivity.
  - intros k' H1 H2. simpl in H2. lia.
Defined.

(** ** One row through the update *)

Module RowFacts.
Import Text Pandas App Props FrameFacts JoinFacts SeriesFacts UpdateFacts.
Import ShapeFacts DropFacts NanFacts DictFacts JoinRowFacts.
Local Open Scope string_scope.

Lemma update_row (df : DataFrame) (col : string) (u : Updated) (i : nat)
      (old : cell) :
  update df col = Ok u -> (i < index df)%nat ->
  cell_at df i col = Ok (One old) ->
  exists news n c,
    select df "New Score" = [news]
    /\ substituted (at_row i news) old = Ok (One c)
    /\ cell_at (df_after u) i col = Ok (One c)
    /\ select (df_after u) "New Score" = [n]
    /\ at_row i n = (if string_dec col "New Score" then c else at_row i news)
    /\ updated_count u = count_notna n
    /\ not_found_count u = count_isna n.
Proof.
  intros H Hi Ho. unfold update in H.
  apply bind_Ok in H as (d' & Hd & H).
  apply bind_Ok in H as (du & Hdu & H).
  apply bind_Ok in H as (x & Hx & H).
  apply bind_Ok in H as (n & Hn & H).
  injection H as <-. simpl.
  pose proof (getitem_series _ _ _ _ Hx Hn) as Sel.
  destruct (update_scores_new_score _ _ _ _ Hd Hi) as (news & E).
  rewrite cell_at_pick in Ho by assumption.
  apply pick_One in Ho as (olds & Ho & <-).
  destruct (update_scores_unique _ _ _ _ _ E Ho Hd) as (s & -> & L & S).
  exists news, n, (at_row i s).
  split; [exact E|]. split; [exact (S i Hi)|].
  split.
  { rewrite cell_at_pick by (simpl; assumption).
    now rewrite select_setitem_same, Ho. }
  split; [exact Sel|]. split; [|split; reflexivity].
  destruct (string_dec col "New Score") as [->|Hne].
  - rewrite select_setitem_same, E in Sel. simpl in Sel. congruence.
  - rewrite select_setitem_other in Sel by assumption. congruence.
Qed.
End RowFacts.

Import RowFacts.

(** X6.  A grade-book row whose email is not in the identity map, when no
    live-scores row has the identifier ["nan"], has no new score: the
    update leaves its target cell as it was, and the row is among those
    [not_found_count] counts. *)
Theorem unresolved_row_keeps_value
        (a b m : DataFrame) (j : Joined) (i : nat) (e old : cell)
        (col : string) (u : Updated) :
  wf a -> wf b ->
  prepare a b m = Ok j ->
  (i < index a)%nat ->
  cell_at (df_a j) i email_col = Ok (One e) ->
  dict_get e (email_to_id j) = None ->
  (forall k, (k < index b)%nat ->
             cell_at (df_b j) k "Student ID Number" <> Ok (One (Str "nan"))) ->
  update (df_a j) col = Ok u ->
  cell_at (df_a j) i col = Ok (One old) ->
  cell_at (df_after u) i col = Ok (One old)
  /\ exists n, select (df_after u) "New Score" = [n]
               /\ isna (at_row i n) = true
               /\ not_found_count u = count_isna n.
Proof.
  intros Wa Wb H Hi He Hmiss Hlive Hu Ho.
  apply prepare_Ok in H as (ce & me & lid & tot & v & R & ->).
  destruct (joined_columns a b m ce me lid tot v Wa Wb R)
    as (E & IDS & LIDS & TOTS & SE & SI & SL & ST & LE & LI & LL & LT
        & -> & -> & Hsm & SN0 & SN).
  set (j := joined a b m ce me lid tot v) in *.
  assert (Hia : (i < index (df_a j))%nat) by exact Hi.
  apply (cell_at_One _ _ _ _ _ Hia SE) in He. subst e.
  assert (Hid : at_row i (normalize_id (Series_map (email_to_id j) E))
                = Str "nan")
    by (apply unknown_email_id; [lia | exact Hmiss]).
  destruct (update_row _ _ _ _ _ Hu Hia Ho)
    as (news & n & c & En & Sub & Hc & Sn & Hn & _ & Cn).
  assert (Hnew : at_row i news = NaN).
  { rewrite (SN news) by (rewrite En; now left). rewrite Hsm.
    apply (new_score_absent _ _ _ i "nan"); [lia | exact Hid |].
    intros k Lk E'. apply (Hlive k); [lia|].
    assert (Hb : (k < index (df_b j))%nat) by (simpl; lia).
    apply (proj2 (cell_at_One _ _ _ _ _ Hb SL)). exact E'. }
  rewrite Hnew in Sub. unfold substituted in Sub. simpl in Sub.
  injection Sub as <-.
  split; [exact Hc|]. exists n. split; [exact Sn|]. split; [|exact Cn].
  rewrite Hn. destruct (string_dec col "New Score") as [->|_].
  - rewrite cell_at_pick in Ho by assumption. rewrite En in Ho. simpl in Ho.
    injection Ho as <-. now rewrite Hnew.
  - now rewrite Hnew.
Qed.

Lemma unresolved_row_keeps_value_witness :
  exists j u,
    prepare grade_book_2 live_scores identity_map_2 = Ok j
    /\ update (df_a j) "Quiz 1" = Ok u
    /\ cell_at (df_after u) 1 "Quiz 1" = Ok (One (Str "0.00")).
Proof.
  destruct (prepare grade_book_2 live_scores identity_map_2)
    as [j|x] eqn:H; [|vm_compute in H; discriminate].
  destruct (update (df_a j) "Quiz 1") as [u|x] eqn:U;
    [|vm_compute in H; injection H as <-; vm_compute in U; discriminate].
  exists j, u. split; [reflexivity|]. split; [exact U|].
  apply (unresolved_row_keeps_value
           grade_book_2 live_scores identity_map_2 j 1
           (Str "nobody@x.com") (Str "0.00") "Quiz 1" u).
  - repeat constructor.
  - repeat constructor.
  - exact H.
  - simpl. lia.
  - vm_compute in H. injection H as <-. vm_compute. reflexivity.
  - vm_compute in H. injection H as <-. vm_compute. reflexivity.
  - intros k Hk. vm_compute in H. injection H as <-.
    destruct k as [|k]; [vm_compute; discriminate | simpl in Hk; lia].
  - exact U.
  - vm_compute in H. injection H as <-. vm_compute. reflexivity.
Defined.

(** ** Running the update on its own result *)

Module AgainFacts.
Import Text Pandas App Props FrameFacts JoinFacts SeriesFacts UpdateFacts.
Import ShapeFacts DropFacts NanFacts.
Local Open Scope string_scope.

Lemma setitem_setitem (df : DataFrame) (l : string) (s s' : Series) :
  setitem (setitem df l s) l s' = setitem df l s'.
Proof.
  unfold setitem. simpl. f_equal.
  destruct (existsb (named l) (cols df)) eqn:E.
  - assert (E' : existsb (named l)
                   (map (fun c => if named l c then (fst c, s) else c)
                        (cols df)) = true).
    { apply existsb_exists in E as (c & Hc & N).
      apply existsb_exists. exists (fst c, s). split.
      - apply in_map_iff. exists c. now rewrite N.
      - unfold named in *. simpl. exact N. }
    rewrite E'. rewrite map_map. apply map_ext. intros c.
    destruct (named l c) eqn:N; [|now rewrite N].
    unfold named in *. simpl. now rewrite N.
  - rewrite existsb_app, E. simpl. unfold named at 1. simpl.
    rewrite String.eqb_refl. simpl.
    rewrite map_app. simpl. unfold named at 2. simpl.
    rewrite String.eqb_refl. f_equal.
    rewrite <- (map_id (cols df)) at 2. apply map_ext_in. intros c Hc.
    destruct (named l c) eqn:N; [|reflexivity].
    exfalso. assert (existsb (named l) (cols df) = true)
      by (apply existsb_exists; eauto). congruence.
Qed.

Lemma mapM_intro {A B : Type} (f : A -> result B) (l : list A) (bs : list B) :
  List.length bs = List.length l ->
  (forall i a b, nth_error l i = Some a -> nth_error bs i = Some b ->
                 f a = Ok b) ->
  mapM f l = Ok bs.
Proof.
  revert bs. induction l as [|a l IH]; intros [|b bs] L H; simpl in *;
    try discriminate; [reflexivity|].
  rewrite (H 0%nat a b eq_refl eq_refl). simpl.
  rewrite (IH bs); [reflexivity | lia |].
  intros i a' b' Ha Hb. exact (H (S i) a' b' Ha Hb).
Qed.

Lemma cells_map_One (s : Series) : cells (map One s) = Some s.
Proof. induction s as [|c s IH]; simpl; [reflexivity | now rewrite IH]. Qed.

Lemma substituted_again (new old c : cell) :
  substituted new old = Ok (One c) -> substituted new c = Ok (One c).
Proof.
  unfold substituted.
  destruct (notna new && String.eqb (strip (py_str old)) "0.00") eqn:C.
  - apply andb_true_iff in C as (N & _). rewrite N. simpl.
    destruct (py_float new) as [f|e]; simpl; intros H; [|discriminate].
    injection H as <-. simpl.
    now destruct (String.eqb (strip (Float64.format_2f f)) "0.00").
  - intros H. injection H as <-. now rewrite C.
Qed.

(** a successful update that wrote a column read one column under each of
    its two labels, as soon as there is a row *)
Lemma update_scores_wrote (df : DataFrame) (col : string) (ps : list picked)
      (s : Series) :
  mapM (substitute col) (rows df) = Ok ps -> cells ps = Some s ->
  (0 < index df)%nat ->
  exists news olds, select df "New Score" = [news] /\ select df col = [olds].
Proof.
  intros Hps C Hi.
  destruct (mapM_nth _ _ _ Hps) as (_ & N).
  destruct (N 0%nat _ (rows_nth_error df 0 Hi)) as (p & Hp & Hsub).
  destruct (cells_Some _ _ C) as (_ & Nc).
  destruct (Nc 0%nat p Hp) as (c & -> & _).
  unfold substitute in Hsub. rewrite !row_getitem_pick in Hsub.
  destruct (select df "New Score") as [|news [|n2 ns]]; simpl in Hsub;
    try discriminate.
  destruct (select df col) as [|olds [|o2 os]]; simpl in Hsub;
    try discriminate.
  - eauto.
  - rewrite andb_false_r in Hsub. discriminate.
Qed.

Lemma update_scores_again (df d1 : DataFrame) (col : string) :
  col <> "New Score" ->
  update_scores df col = Ok d1 -> update_scores d1 col = Ok d1.
Proof.
  intros Hne H. pose proof H as H0. unfold update_scores in H.
  apply bind_Ok in H as (ps & Hps & H).
  destruct (cells ps) as [s|] eqn:C; injection H as <-; [|exact H0].
  destruct (mapM_nth _ _ _ Hps) as (L & _). rewrite rows_length in L.
  destruct (cells_Some _ _ C) as (Ls & _).
  destruct (Nat.eq_dec (index df) 0) as [I|I].
  - destruct s; [|simpl in Ls; lia].
    unfold update_scores, rows. simpl. rewrite I. simpl.
    now rewrite setitem_setitem.
  - destruct (update_scores_wrote df col ps s Hps C ltac:(lia))
      as (news & olds & En & Eo).
    destruct (update_scores_unique _ _ _ _ _ En Eo H0) as (s' & Es & _ & S).
    assert (s' = s).
    { assert (F : select (setitem df col s') col = select (setitem df col s) col)
        by now rewrite Es.
      rewrite !select_setitem_same, Eo in F. simpl in F. congruence. }
    subst s'.
    assert (En1 : select (setitem df col s) "New Score" = [news])
      by (rewrite select_setitem_other by assumption; exact En).
    assert (Eo1 : select (setitem df col s) col = [s])
      by (rewrite select_setitem_same, Eo; reflexivity).
    unfold update_scores.
    rewrite (mapM_intro (substitute col) (rows (setitem df col s)) (map One s)).
    + simpl. rewrite cells_map_One. now rewrite setitem_setitem.
    + rewrite length_map, rows_length. simpl. lia.
    + intros i r p Hr Hp.
      assert (Hi : (i < index df)%nat).
      { change (index df) with (index (setitem df col s)).
        rewrite <- rows_length. apply nth_error_Some. congruence. }
      rewrite rows_nth_error in Hr by (simpl; exact Hi).
      injection Hr as <-.
      change (substitute col
                (map (fun c : string * Series => (fst c, at_row i (snd c)))
                     (cols (setitem df col s))) = Ok p).
      rewrite (substitute_unique _ col i news s En1 Eo1).
      rewrite nth_error_map in Hp.
      destruct (nth_error s i) as [c|] eqn:Ec; [|discriminate].
      injection Hp as <-.
      assert (at_row i s = c) as Hc
        by (unfold at_row; now rewrite (nth_error_nth _ _ _ Ec)).
      rewrite Hc. apply (substituted_again _ (at_row i olds)).
      rewrite <- Hc. apply S. exact Hi.
Qed.
End AgainFacts.

Import AgainFacts.

(** X7.  Running line 115 on its own result changes nothing, for a target
    other than ["New Score"]: a cell that was written holds the format of
    its new score and is written the same again, and a cell that was left
    is left again. *)
Theorem update_scores_idempotent (df d1 : DataFrame) (col : string) :
  col <> "New Score" ->
  update_scores df col = Ok d1 ->
  update_scores d1 col = Ok d1.
Proof. apply update_scores_again. Qed.

Lemma update_scores_idempotent_witness :
  update_scores written_book "Quiz 1" = Ok written_book.
Proof.
  apply (update_scores_idempotent joined_book written_book "Quiz 1").
  - discriminate.
  - vm_compute. reflexivity.
Defined.

(** ** Emails: trimming and lower case *)

Module EmailFacts.
Import Text Pandas App Props FrameFacts JoinFacts SeriesFacts UpdateFacts.
Import ShapeFacts DropFacts NanFacts JoinRowFacts.
Local Open Scope string_scope.

Lemma isspace_lower_char (c : ascii) : isspace (lower_char c) = isspace c.
Proof. destruct c as [[] [] [] [] [] [] [] []]; reflexivity. Qed.

Lemma lower_char_again (c : ascii) : lower_char (lower_char c) = lower_char c.
Proof. destruct c as [[] [] [] [] [] [] [] []]; reflexivity. Qed.

Lemma lower_again (s : string) : lower (lower s) = lower s.
Proof.
  induction s as [|c s IH]; simpl; [reflexivity|].
  now rewrite lower_char_again, IH.
Qed.

Lemma lstrip_lower (s : string) : lstrip (lower s) = lower (lstrip s).
Proof.
  induction s as [|c s IH]; simpl; [reflexivity|].
  rewrite isspace_lower_char. now destruct (isspace c).
Qed.

Lemma rstrip_lower (s : string) : rstrip (lower s) = lower (rstrip s).
Proof.
  induction s as [|c s IH]; simpl; [reflexivity|].
  rewrite IH, isspace_lower_char.
  destruct (rstrip s) as [|c' r]; simpl.
  - now destruct (isspace c).
  - reflexivity.
Qed.

Lemma strip_lower (s : string) : strip (lower s) = lower (strip s).
Proof. unfold strip. now rewrite lstrip_lower, rstrip_lower. Qed.

Lemma rstrip_again (s : string) : rstrip (rstrip s) = rstrip s.
Proof.
  induction s as [|c s IH]; simpl; [reflexivity|].
  destruct (rstrip s) as [|c' r] eqn:E.
  - destruct (isspace c) eqn:Sc; simpl; [reflexivity | now rewrite Sc].
  - simpl in IH |- *. now rewrite IH.
Qed.

Lemma lstrip_head (s : string) :
  match lstrip s with
  | String c _ => isspace c = false
  | EmptyString => True
  end.
Proof.
  induction s as [|c s IH]; simpl; [exact I|].
  destruct (isspace c) eqn:Sc; [exact IH | exact Sc].
Qed.

Lemma lstrip_rstrip (t : string) :
  match t with String c _ => isspace c = false | EmptyString => True end ->
  lstrip (rstrip t) = rstrip t.
Proof.
  destruct t as [|c t]; [reflexivity|]. intros Sc. simpl.
  destruct (rstrip t); rewrite ?Sc; simpl; rewrite ?Sc; reflexivity.
Qed.

Lemma strip_again (s : string) : strip (strip s) = strip s.
Proof.
  unfold strip. rewrite (lstrip_rstrip _ (lstrip_head s)).
  apply rstrip_again.
Qed.

Lemma normalize_email_again (s : Series) :
  normalize_email (normalize_email s) = normalize_email s.
Proof.
  rewrite !normalize_email_map, map_map. apply map_ext. intros c.
  simpl py_str. now rewrite strip_lower, strip_again, lower_again.
Qed.

Lemma normalize_email_at (s : Series) (i : nat) :
  (i < List.length s)%nat ->
  at_row i (normalize_email s) = Str (lower (strip (py_str (at_row i s)))).
Proof. intros H. rewrite normalize_email_map. now apply at_row_map. Qed.
End EmailFacts.

Import EmailFacts.

(** X8.  The normalisation of the email keys (lines 77 and 78: text,
    trimmed, lower case) is idempotent: trimming a lower-cased text gives
    the lower case of the trimmed text, and neither step undoes the
    other. *)
Theorem normalize_email_idempotent (s : Series) :
  normalize_email (normalize_email s) = normalize_email s.
Proof. apply normalize_email_again. Qed.

(** X9.  The emails are matched up to letter case and surrounding white
    space.  When the identity map has one column named ["Student ID
    Number"] and a row whose email has the same trimmed lower-case text as
    the email of a grade-book row, the normalised email of that grade-book
    row is a key of [email_to_id]. *)
Theorem emails_match_up_to_case_and_blanks
        (a b m : DataFrame) (j : Joined) (i k : nat) (s s' : string) :
  wf a -> wf m ->
  bearers "Student ID Number" m = 1%nat ->
  prepare a b m = Ok j ->
  (i < index a)%nat -> (k < index m)%nat ->
  cell_at (strip_columns a) i email_col = Ok (One (Str s)) ->
  cell_at (strip_columns m) k "email" = Ok (One (Str s')) ->
  lower (strip s) = lower (strip s') ->
  cell_at (df_a j) i email_col = Ok (One (Str (lower (strip s))))
  /\ exists v, dict_get (Str (lower (strip s))) (email_to_id j) = Some v.
Proof.
  intros Wa Wm Bm H Hi Hk Ha Hm Eq.
  apply prepare_Ok in H as (e & me & lid & tot & v & R & ->).
  destruct (joined_select a b m e me lid tot v R) as (SE & _).
  pose proof R as (He & _ & Hme & Hv & _).
  pose proof (wf_select _ _ _ (wf_strip_columns _ Wa) (singleton_In _ _ He))
    as Le. simpl in Le.
  pose proof (wf_select _ _ _ (wf_strip_columns _ Wm) (singleton_In _ _ Hme))
    as Lme. simpl in Lme.
  apply (cell_at_One (strip_columns a) _ _ _ _ Hi He) in Ha.
  apply (cell_at_One (strip_columns m) _ _ _ _ Hk Hme) in Hm.
  split.
  { apply (proj2 (cell_at_One (df_a (joined a b m e me lid tot v))
                    _ _ _ _ Hi SE)).
    rewrite normalize_email_at by lia. now rewrite Ha. }
  unfold bearers in Bm. unfold getitem in Hv.
  destruct (select (strip_columns m) "Student ID Number")
    as [|sid [|s2 ss]] eqn:Es; simpl in Bm; try discriminate.
  injection Hv as <-.
  pose proof (wf_select _ _ _ (wf_strip_columns _ Wm) (singleton_In _ _ Es))
    as Lsid. simpl in Lsid.
  unfold joined. simpl email_to_id. simpl iter.
  assert (I : In (Str (lower (strip s))) (normalize_email me)).
  { rewrite Eq.
    replace (Str (lower (strip s')))
      with ((fun c => Str (lower (strip (py_str c)))) (at_row k me))
      by (rewrite Hm; reflexivity).
    rewrite normalize_email_map.
    apply (in_map (fun c => Str (lower (strip (py_str c)))) me (at_row k me)).
    apply nth_In. lia. }
  assert (LL : List.length (normalize_email me) = List.length sid)
    by (rewrite normalize_email_length; lia).
  destruct (dict_zip_hit _ _ sid LL I) as (k' & w & Hw & _). eauto.
Qed.

Lemma emails_match_up_to_case_and_blanks_witness :
  exists j,
    prepare grade_book live_scores identity_map = Ok j
    /\ cell_at (df_a j) 0 email_col = Ok (One (Str "a@x.com"))
    /\ exists v, dict_get (Str "a@x.com") (email_to_id j) = Some v.
Proof.
  destruct (prepare grade_book live_scores identity_map)
    as [j|x] eqn:H; [|vm_compute in H; discriminate].
  exists j. split; [reflexivity|].
  apply (emails_match_up_to_case_and_blanks
           grade_book live_scores identity_map j 0 0 " A@X.com " "a@x.com");
    try (repeat constructor); try exact H; vm_compute; reflexivity.
Defined.

(** ** Identifiers made of digits *)

Module DigitFacts.
Import Text Pandas App Props TextFacts SeriesFacts.
Local Open Scope string_scope.

Lemma is_digit_plain (c : ascii) :
  is_digit c = true -> isspace c = false /\ c <> "."%char.
Proof.
  destruct c as [[] [] [] [] [] [] [] []]; try discriminate;
    intros _; split; try reflexivity; discriminate.
Qed.

Lemma all_digits_no_space (t u : string) :
  all_digits t = true -> no_space u = true -> no_space (t ++ u) = true.
Proof.
  intros H Hu. induction t as [|c t IH]; simpl in *; [exact Hu|].
  apply andb_true_iff in H as (Hc & Ht).
  destruct (is_digit_plain c Hc) as (-> & _). simpl. now apply IH.
Qed.

Lemma drop_point_zero_digits (t u : string) :
  all_digits t = true ->
  drop_point_zero (t ++ u) = t ++ drop_point_zero u.
Proof.
  intros H. induction t as [|c t IH]; [reflexivity|].
  simpl in H. apply andb_true_iff in H as (Hc & Ht).
  destruct (is_digit_plain c Hc) as (_ & Np).
  change (String c t ++ u) with (String c (t ++ u)).
  rewrite drop_point_zero_cons by now apply prefix_cons_point.
  simpl. now rewrite IH.
Qed.

Lemma append_nil_r (t : string) : t ++ "" = t.
Proof. induction t as [|c t IH]; simpl; [reflexivity | now rewrite IH]. Qed.

Lemma normalize_id_digits (t : string) :
  all_digits t = true ->
  normalize_id [Str (t ++ ".0")] = [Str t] /\ normalize_id [Str t] = [Str t].
Proof.
  intros H. rewrite !normalize_id_map. simpl. split.
  - rewrite strip_no_space by now apply all_digits_no_space.
    rewrite drop_point_zero_digits by assumption.
    simpl. now rewrite append_nil_r.
  - rewrite <- (append_nil_r t) at 1.
    rewrite strip_no_space by now apply all_digits_no_space.
    rewrite drop_point_zero_digits by assumption.
    simpl. now rewrite append_nil_r.
Qed.
End DigitFacts.

Import DigitFacts.

(** X10.  For an identifier made of digits, line 85 gives the digits both
    for the text with the float artifact [".0"] and for the text without
    it: the two ways a numeric identifier can reach the grade book end in
    the same key. *)
Theorem normalize_id_of_digits (t : string) :
  all_digits t = true ->
  normalize_id [Str (t ++ ".0")] = [Str t] /\ normalize_id [Str t] = [Str t].
Proof. apply normalize_id_digits. Qed.

Lemma normalize_id_of_digits_witness :
  normalize_id [Str ("20231001" ++ ".0")] = [Str "20231001"]
  /\ normalize_id [Str "20231001"] = [Str "20231001"].
Proof. apply normalize_id_of_digits. reflexivity. Defined.

(** ** The update cannot fail on a joined grade book *)

Module SucceedFacts.
Import Text Pandas App Props FrameFacts JoinFacts SeriesFacts UpdateFacts.
Import ShapeFacts DropFacts NanFacts KeepFacts AgainFacts.
Local Open Scope string_scope.

Lemma dict_get_In (k v : cell) (d : dict) :
  dict_get k d = Some v -> In v (map snd d).
Proof.
  induction d as [|[k' v'] d IH]; simpl; [discriminate|].
  destruct (key_eqb k' k); intros H; [injection H as ->; now left|].
  right. now apply IH.
Qed.

Lemma dict_set_values (k v x : cell) (d : dict) :
  In x (map snd (dict_set k v d)) -> x = v \/ In x (map snd d).
Proof.
  induction d as [|[k' v'] d IH]; simpl.
  - intros [<-|[]]. now left.
  - destruct (key_eqb k' k); simpl.
    + intros [<-|H]; [now left | right; now right].
    + intros [<-|H]; [right; now left|].
      destruct (IH H) as [->|H']; [now left | right; now right].
Qed.

Lemma fold_values (l : list (cell * cell)) (d : dict) (x : cell) :
  In x (map snd (fold_left (fun d kv => dict_set (fst kv) (snd kv) d) l d)) ->
  In x (map snd l) \/ In x (map snd d).
Proof.
  revert d. induction l as [|[k v] l IH]; intros d; simpl; [now right|].
  intros H. destruct (IH _ H) as [H'|H']; [left; now right|].
  apply dict_set_values in H' as [->|H']; [left; now left | now right].
Qed.

Lemma dict_zip_values (ks vs : Series) (k v : cell) :
  dict_get k (dict_zip ks vs) = Some v -> In v vs.
Proof.
  intros H. apply dict_get_In in H. unfold dict_zip in H.
  apply fold_values in H as [H|[]].
  apply in_map_iff in H as ([k' v'] & <- & H). now apply in_combine_r in H.
Qed.

Lemma Series_map_floats (ks vs s : Series) :
  Forall (fun c => is_float c = true) vs ->
  Forall (fun c => is_float c = true) (Series_map (dict_zip ks vs) s).
Proof.
  intros F. unfold Series_map. rewrite map_map.
  apply Forall_forall. intros c Hc.
  apply in_map_iff in Hc as (k & <- & _).
  destruct (dict_get k (dict_zip ks vs)) as [v|] eqn:E; [|reflexivity].
  apply dict_zip_values in E. rewrite Forall_forall in F.
  specialize (F v E). destruct v; try discriminate.
  now destruct (match infer_dtype _ with
                | int64 => _ | float64 => _ | object => _ end).
Qed.

Lemma normalize_total_floats (s : Series) :
  Forall (fun c => is_float c = true) (normalize_total s).
Proof.
  rewrite normalize_total_map. apply Forall_forall. intros c Hc.
  apply in_map_iff in Hc as (c0 & <- & _). reflexivity.
Qed.

Lemma at_row_float (s : Series) (i : nat) :
  Forall (fun c => is_float c = true) s -> is_float (at_row i s) = true.
Proof.
  intros F. unfold at_row.
  destruct (nth_in_or_default i s NaN) as [H| ->]; [|reflexivity].
  rewrite Forall_forall in F. now apply F.
Qed.

Lemma substituted_float (new old : cell) :
  is_float new = true -> exists c, substituted new old = Ok (One c).
Proof.
  destruct new as [t|z|f]; try discriminate. intros _.
  unfold substituted. destruct (notna (Float f) && _); simpl; eauto.
Qed.

(** line 115 on a frame whose new scores are floats and whose two labels
    are each borne once *)
Lemma update_scores_floats (df : DataFrame) (col : string)
      (news olds : Series) :
  select df "New Score" = [news] -> select df col = [olds] ->
  Forall (fun c => is_float c = true) news ->
  exists s, update_scores df col = Ok (setitem df col s).
Proof.
  intros En Eo F.
  set (g := fun i => match substituted (at_row i news) (at_row i olds) with
                     | Ok (One c) => c
                     | _ => NaN
                     end).
  exists (map g (seq 0 (index df))).
  unfold update_scores.
  rewrite (mapM_intro (substitute col) (rows df)
             (map One (map g (seq 0 (index df))))).
  - simpl. now rewrite cells_map_One.
  - now rewrite !length_map, length_seq, rows_length.
  - intros i r p Hr Hp.
    assert (Hi : (i < index df)%nat).
    { rewrite <- rows_length. apply nth_error_Some. congruence. }
    rewrite rows_nth_error in Hr by assumption. injection Hr as <-.
    rewrite (substitute_unique df col i news olds En Eo).
    rewrite map_map, nth_error_map, nth_error_seq in Hp.
    apply Nat.ltb_lt in Hi. rewrite Hi in Hp. simpl in Hp.
    injection Hp as <-. unfold g.
    destruct (substituted_float (at_row i news) (at_row i olds)
                (at_row_float news i F)) as (c & ->). reflexivity.
Qed.
End SucceedFacts.

Import SucceedFacts.

(** X11.  Once the join has gone through, the button cannot fail on a
    target that one column bears, provided the upload had at most one
    column named ["New Score"]: every new score is a float, so [float] of
    line 116 accepts it, the two columns line 120 drops are there, and
    the counts of lines 131 and 132 read one column. *)
Theorem update_succeeds_on_joined
        (a b m : DataFrame) (j : Joined) (col : string) :
  prepare a b m = Ok j ->
  (bearers "New Score" a <= 1)%nat ->
  List.length (select (df_a j) col) = 1%nat ->
  exists u, update (df_a j) col = Ok u.
Proof.
  intros H B L.
  apply prepare_Ok in H as (e & me & lid & tot & v & R & ->).
  destruct (joined_select a b m e me lid tot v R)
    as (SE & SI & SN & SN0 & _ & _).
  set (j := joined a b m e me lid tot v) in *.
  assert (En : exists news, select (df_a j) "New Score" = [news]
                            /\ Forall (fun c => is_float c = true) news).
  { exists (Series_map (score_map j)
              (normalize_id (Series_map (email_to_id j) (normalize_email e)))).
    split.
    - unfold j, joined. simpl. rewrite select_setitem_same.
      rewrite !select_setitem_other by discriminate.
      unfold bearers in B.
      destruct (select (strip_columns a) "New Score") as [|s1 [|s2 ss]];
        simpl in *; try reflexivity. lia.
    - unfold j, joined. simpl score_map.
      apply Series_map_floats, normalize_total_floats. }
  destruct En as (news & En & F).
  destruct (select (df_a j) col) as [|olds [|o2 os]] eqn:Eo;
    simpl in L; try discriminate.
  destruct (update_scores_floats (df_a j) col news olds En Eo F) as (s & Hs).
  unfold update. rewrite Hs. cbn [bind].
  destruct (drop_present (setitem (df_a j) col s)
              ["Student ID Number"; "New Score"]) as (du & Hdu).
  { intros l Hl. apply select_not_nil_In.
    destruct (string_dec col l) as [->|Hne].
    - rewrite select_setitem_same, Eo. discriminate.
    - rewrite select_setitem_other by assumption.
      destruct Hl as [<-|[<-|[]]]; [rewrite SI | rewrite En]; discriminate. }
  rewrite Hdu. cbn [bind].
  assert (G : exists n, getitem (setitem (df_a j) col s) "New Score"
                        = Ok (Column n)).
  { destruct (string_dec col "New Score") as [->|Hne].
    - exists s. apply getitem_unique.
      rewrite select_setitem_same, En. reflexivity.
    - exists news. apply getitem_unique.
      now rewrite select_setitem_other. }
  destruct G as (n & ->). cbn [bind series]. eauto.
Qed.

Lemma update_succeeds_on_joined_witness :
  exists j u,
    prepare grade_book_2 live_scores_2 identity_map_2 = Ok j
    /\ update (df_a j) "Quiz 1" = Ok u.
Proof.
  destruct (prepare grade_book_2 live_scores_2 identity_map_2)
    as [j|x] eqn:H; [|vm_compute in H; discriminate].
  destruct (update_succeeds_on_joined
              grade_book_2 live_scores_2 identity_map_2 j "Quiz 1" H)
    as (u & Hu).
  - vm_compute. repeat constructor.
  - vm_compute in H. injection H as <-. vm_compute. reflexivity.
  - exists j, u. split; [reflexivity | exact Hu].
Defined.

(** X12.  Stripping the headers (lines 71 to 73) is idempotent: a header
    that has been stripped has no white space left around it, so a frame
    whose headers were stripped is left as it is. *)
Theorem strip_columns_idempotent (df : DataFrame) :
  strip_columns (strip_columns df) = strip_columns df.
Proof.
  unfold strip_columns. simpl. f_equal. rewrite map_map.
  apply map_ext. intros c. simpl. now rewrite strip_again.
Qed.
